(** * Quoalise: a shallow embedding of the client, the server and the helpers

    The development follows the Python package [quoalise]:
    - [utils.py]      : [parse_iso_date], [format_iso_date];
    - [xmpp_utils.py] : [_wait_for_session_start];
    - [client.py]     : [IqErrorConverter], [ClientAsync];
    - [server.py]     : [ErrorToXmppConverter], [CommandHandler] and the
                        command variants.

    Python exceptions are values of [exn]; a call that may raise returns a
    [result].  The XMPP library (slixmpp), [asyncio] and [datetime] are the
    environment: only the part of their behaviour the package relies on is
    modelled, and each such model says so. *)

From Stdlib Require Import Ascii String List NArith ZArith Arith Bool Lia.
From stdpp Require Import base strings gmap list.

Local Open Scope string_scope.
Local Open Scope nat_scope.

(* ===================================================================== *)
(** ** Exceptions and results                                             *)
(* ===================================================================== *)

(** The XML payload of an error stanza, as far as [IqErrorConverter.convert]
    looks at it: the result of [iq.xml.find(".//{urn:quoalise:0}upstream-error")]
    ([None] when absent) with the element's [attrib] dictionary. *)
Record iq_xml := IqXml {
  upstream_error : option (gmap string string)
}.

(** Modelled from the spec: [errors.py] is not part of the sources at hand.
    The domain errors are the tagged variant of the data model (NotAuthorized,
    ServiceUnavailable, BadRequest, UpstreamError with issuer and code,
    ConnectionFailed), each with its message.  The other constructors are the
    Python and slixmpp exceptions the package raises or inspects. *)
Inductive exn :=
  | NotAuthorized (text : string)
  | ServiceUnavailable (text : string)
  | BadRequest (text : string)
  | UpstreamError (issuer code message : string)
  | ConnectionFailed (message : string)
  | ValueError (message : string)
  | PermissionError (message : string)
  | TypeError (message : string)
  | KeyError (key : string)
  | RuntimeError (message : string)
  | TimeoutError
  | IqError (condition text : string) (iq : iq_xml)
  | XMPPError (condition : string) (etype : option string) (text : string)
  | OtherError (class_name message : string).

Inductive result (A : Type) :=
  | Ok (a : A)
  | Raise (e : exn).
Arguments Ok {A} a.
Arguments Raise {A} e.

#[global] Instance result_ret : MRet result := fun A a => Ok a.

#[global] Instance result_bind : MBind result := fun A B k r =>
  match r with
  | Ok a => k a
  | Raise e => Raise e
  end.

(** The kinds of error the data model calls domain errors. *)
Definition is_domain_error (e : exn) : bool :=
  match e with
  | NotAuthorized _ | ServiceUnavailable _ | BadRequest _
  | UpstreamError _ _ _ | ConnectionFailed _ => true
  | _ => false
  end.

(* ===================================================================== *)
(** ** utils.py                                                           *)
(* ===================================================================== *)

Module Utils.

Local Open Scope N_scope.

(** [datetime.date]: the constructor refuses what is not a calendar day of
    the years 1 to 9999. *)
Record date := Date { year : N; month : N; day : N }.

Definition is_leap (y : N) : bool :=
  (y mod 4 =? 0) && (negb (y mod 100 =? 0) || (y mod 400 =? 0)).

Definition days_in_month (y m : N) : N :=
  match m with
  | 1 | 3 | 5 | 7 | 8 | 10 | 12 => 31
  | 4 | 6 | 9 | 11 => 30
  | 2 => if is_leap y then 29 else 28
  | _ => 0
  end.

Definition valid_date (d : date) : bool :=
  (1 <=? year d) && (year d <=? 9999) &&
  (1 <=? month d) && (month d <=? 12) &&
  (1 <=? day d) && (day d <=? days_in_month (year d) (month d)).

Definition make_date (y m d : N) : result date :=
  if valid_date (Date y m d) then Ok (Date y m d)
  else Raise (ValueError "date out of range").

(** *** Decimal digits *)

Definition digit_char (n : N) : ascii := ascii_of_N (48 + n).

Definition digit_val (c : ascii) : option N :=
  let k := N_of_ascii c in
  if (48 <=? k) && (k <=? 57) then Some (k - 48) else None.

(** A digit between [lo] and [hi], as the character classes [[lo-hi]] of
    the regular expressions of [_strptime]. *)
Definition digit_in (lo hi : N) (c : ascii) : option N :=
  match digit_val c with
  | Some n => if (lo <=? n) && (n <=? hi) then Some n else None
  | None => None
  end.

Definition pad2 (n : N) : string :=
  String (digit_char (n / 10 mod 10)) (String (digit_char (n mod 10)) "").

Definition pad4 (n : N) : string :=
  String (digit_char (n / 1000 mod 10))
    (String (digit_char (n / 100 mod 10)) (pad2 n)).

(** [%d] of the C library: the decimal digits of [n], no padding. *)
Fixpoint to_digits (fuel : nat) (n : N) (acc : string) : string :=
  match fuel with
  | O => acc
  | S fuel' =>
      let acc' := String (digit_char (n mod 10)) acc in
      if n / 10 =? 0 then acc' else to_digits fuel' (n / 10) acc'
  end.

Definition decimal (n : N) : string := to_digits (S (N.to_nat n)) n "".

(** *** [date.strftime("%Y-%m-%d")]

    [%m] and [%d] are two digits.  [%Y] is left to the C library for years
    below 1000: some print four digits, some (glibc) print the number as it
    is; [pads_year] tells which. *)
Definition strftime_Y (pads_year : bool) (y : N) : string :=
  if pads_year then pad4 y else decimal y.

Definition format_iso_date (pads_year : bool) (d : date) : string :=
  strftime_Y pads_year (year d) ++ "-" ++ pad2 (month d) ++ "-" ++ pad2 (day d).

(** *** [datetime.strptime(s, "%Y-%m-%d").date()]

    [_strptime] turns the format into the regular expression
    [(?P<Y>\d\d\d\d)-(?P<m>1[0-2]|0[1-9]|[1-9])-(?P<d>3[0-1]|[1-2]\d|0[1-9]|[1-9]| [1-9])],
    matches it at the start of the string, refuses what is left over, and
    builds the date.  Each directive below lists its alternatives in the
    order of the expression, with the value read and the rest of the input.
    Characters are bytes: the digits are the ASCII ones. *)
Definition re_Y (s : string) : list (N * string) :=
  match s with
  | String a (String b (String c (String d rest))) =>
      match digit_val a, digit_val b, digit_val c, digit_val d with
      | Some a, Some b, Some c, Some d =>
          [(1000 * a + 100 * b + 10 * c + d, rest)]
      | _, _, _, _ => []
      end
  | _ => []
  end.

Definition alt2 (lo1 hi1 lo2 hi2 : N) (s : string) : list (N * string) :=
  match s with
  | String a (String b rest) =>
      match digit_in lo1 hi1 a, digit_in lo2 hi2 b with
      | Some a, Some b => [(10 * a + b, rest)]
      | _, _ => []
      end
  | _ => []
  end.

Definition alt1 (lo hi : N) (s : string) : list (N * string) :=
  match s with
  | String a rest =>
      match digit_in lo hi a with
      | Some a => [(a, rest)]
      | None => []
      end
  | _ => []
  end.

Definition lit (c : ascii) (s : string) : list string :=
  match s with
  | String a rest => if Ascii.eqb a c then [rest] else []
  | _ => []
  end.

Definition re_m (s : string) : list (N * string) :=
  alt2 1 1 0 2 s ++ alt2 0 0 1 9 s ++ alt1 1 9 s.

Definition re_d (s : string) : list (N * string) :=
  alt2 3 3 0 1 s ++ alt2 1 2 0 9 s ++ alt2 0 0 1 9 s ++ alt1 1 9 s
  ++ flat_map (alt1 1 9) (lit " " s).

(** All the ways the expression matches a prefix of [s], first choice
    first; [re.match] takes the head. *)
Definition re_match (s : string) : list (N * N * N * string) :=
  flat_map (fun '(y, s1) =>
    flat_map (fun s2 =>
      flat_map (fun '(m, s3) =>
        flat_map (fun s4 =>
          map (fun '(d, s5) => (y, m, d, s5)) (re_d s4))
        (lit "-" s3))
      (re_m s2))
    (lit "-" s1))
  (re_Y s).

Definition parse_iso_date (date_str : string) : result date :=
  match re_match date_str with
  | [] => Raise (ValueError "time data does not match format")
  | (y, m, d, rest) :: _ =>
      if String.eqb rest "" then make_date y m d
      else Raise (ValueError "unconverted data remains")
  end.

(** The form [format_iso_date] writes: four digits, a hyphen, two digits, a
    hyphen, two digits. *)
Definition is_digit (c : ascii) : bool :=
  match digit_val c with
  | Some _ => true
  | None => false
  end.

Definition iso_shape (s : string) : bool :=
  match s with
  | String y1 (String y2 (String y3 (String y4 (String h1
      (String m1 (String m2 (String h2 (String d1 (String d2 ""))))))))) =>
      is_digit y1 && is_digit y2 && is_digit y3 && is_digit y4
      && Ascii.eqb h1 "-" && is_digit m1 && is_digit m2
      && Ascii.eqb h2 "-" && is_digit d1 && is_digit d2
  | _ => false
  end.

(** [date.isoformat()]: always four digits for the year. *)
Definition date_isoformat (d : date) : string :=
  pad4 (year d) ++ "-" ++ pad2 (month d) ++ "-" ++ pad2 (day d).

End Utils.

(* ===================================================================== *)
(** ** The XMPP client object (slixmpp.ClientXMPP), as the package uses it *)
(* ===================================================================== *)

Module Slixmpp.

(** The four events [_wait_for_session_start] listens to. *)
Inductive signal := SessionStart | SessionEnd | ConnectionFailedSig | FailedAuth.

Definition signal_name (k : signal) : string :=
  match k with
  | SessionStart => "session_start"
  | SessionEnd => "session_end"
  | ConnectionFailedSig => "connection_failed"
  | FailedAuth => "failed_auth"
  end.

(** The callables the package registers as event handlers.  The four
    closures of [_wait_for_session_start] are fresh objects at each call, so
    they carry the number of the call that made them; [Reconnect] is the
    bound method [ClientAsync.__reconnect]. *)
Inductive handler :=
  | Waiter (call : nat) (k : signal)
  | Reconnect.

#[global] Instance signal_eq_dec : EqDecision signal.
Proof. solve_decision. Defined.

#[global] Instance handler_eq_dec : EqDecision handler.
Proof. solve_decision. Defined.

Definition iscoroutinefunction (h : handler) : bool :=
  match h with
  | Waiter _ _ => false
  | Reconnect => true
  end.

(** The locals [session_state] (an [asyncio.Future], [None] while pending)
    and [error] that the closures of one call share. *)
Record frame := Frame {
  session_state : option bool;
  error : option exn
}.

(** A coroutine handed to [asyncio.ensure_future]: the only coroutine
    handler is [__reconnect], called with the event's data. *)
Inductive coroutine := ReconnectLoop (event_data : string).

(** An [Iq] stanza under construction: its type, its destination and the
    elements appended to it, each kept as the text [fromstring] was given. *)
Record iq_stanza := Iq {
  iq_type : string;
  iq_to : string;
  iq_children : list string
}.

Inductive transport_call :=
  | CallSend (iq : iq_stanza)
  | CallRegisterPlugin (name : string)
  | CallConnect (address : option (string * string))
  | CallDisconnect
  | CallRegisterHandler (name : string)
  | CallSendPresence (ppriority : option Z)
  | CallAddCommand (node name : string).

Record xmpp := Xmpp {
  event_handlers : list (string * handler * bool);
  frames : list frame;
  tasks : list coroutine;
  calls : list transport_call
}.

Definition new_xmpp : xmpp := Xmpp [] [] [] [].

Definition with_handlers (hs : list (string * handler * bool)) (x : xmpp) :=
  Xmpp hs (frames x) (tasks x) (calls x).
Definition with_frames (fs : list frame) (x : xmpp) :=
  Xmpp (event_handlers x) fs (tasks x) (calls x).
Definition spawn (c : coroutine) (x : xmpp) :=
  Xmpp (event_handlers x) (frames x) (tasks x ++ [c]) (calls x).
Definition call (c : transport_call) (x : xmpp) :=
  Xmpp (event_handlers x) (frames x) (tasks x) (calls x ++ [c]).

Definition add_event_handler (name : string) (pointer : handler)
    (disposable : bool) (x : xmpp) : xmpp :=
  with_handlers (event_handlers x ++ [(name, pointer, disposable)]) x.

(** Drops [pointer] from the handlers of [name]. *)
Definition del_event_handler (name : string) (pointer : handler)
    (x : xmpp) : xmpp :=
  with_handlers
    (filter (fun '(n, h, _) => ¬ (n = name ∧ h = pointer)) (event_handlers x))
    x.

(** The bodies of the four closures: each one acts only while the future
    is pending. *)
Definition run_waiter (k : signal) (event_data : string) (f : frame) : frame :=
  match session_state f with
  | Some _ => f
  | None =>
      match k with
      | SessionStart => Frame (Some true) (error f)
      | SessionEnd =>
          Frame (Some false)
                (Some (ConnectionFailed "XMPP server ended the session"))
      | ConnectionFailedSig =>
          Frame (Some false)
                (Some (ConnectionFailed
                         ("XMPP server is not reachable, " +:+ event_data)))
      | FailedAuth =>
          Frame (Some false)
                (Some (ConnectionFailed "Invalid username or password"))
      end
  end.

(** One handler of an event: a coroutine function is scheduled as a task, a
    plain function is called at once. *)
Definition run_handler (h : handler) (event_data : string) (x : xmpp) : xmpp :=
  match h with
  | Reconnect => spawn (ReconnectLoop event_data) x
  | Waiter c k =>
      match frames x !! c with
      | Some f => with_frames (<[c := run_waiter k event_data f]> (frames x)) x
      | None => x
      end
  end.

(** [event(name, data)]: the handlers registered under [name] run in the
    order of registration; the disposable ones are then gone. *)
Definition event (name event_data : string) (x : xmpp) : xmpp :=
  let fired := filter (fun '(n, _, _) => n = name) (event_handlers x) in
  let x' := foldl (fun x '(_, h, _) => run_handler h event_data x) x fired in
  with_handlers
    (filter (fun '(n, _, d) => ¬ (n = name ∧ d = true)) (event_handlers x'))
    x'.

Definition events (trace : list (string * string)) (x : xmpp) : xmpp :=
  foldl (fun x '(n, d) => event n d x) x trace.

End Slixmpp.

(* ===================================================================== *)
(** ** xmpp_utils.py                                                      *)
(* ===================================================================== *)

Module XmppUtils.
Import Slixmpp.

(** The dictionary [handlers], in its order, for the call numbered [c]. *)
Definition handlers (c : nat) : list (string * handler) :=
  map (fun k => (signal_name k, Waiter c k))
      [SessionStart; SessionEnd; ConnectionFailedSig; FailedAuth].

(** [await asyncio.wait_for(session_state, 10)]: the value of the future
    when it is done, [TimeoutError] when the ten seconds pass first. *)
Definition wait_for (f : option frame) : result bool :=
  match f with
  | Some (Frame (Some b) _) => Ok b
  | _ => Raise TimeoutError
  end.

(** [_wait_for_session_start(xmpp_client)].  [trace] lists the events
    (name, data) the transport fires while the call waits, up to the moment
    the call resumes or the timer fires.  Returns the client object as the
    call leaves it and what the call returns or raises. *)
Definition _wait_for_session_start (xmpp_client : xmpp)
    (trace : list (string * string)) : xmpp * result () :=
  let c := length (frames xmpp_client) in
  let x0 := with_frames (frames xmpp_client ++ [Frame None None]) xmpp_client in
  (* try: *)
  let x1 := foldl (fun x '(n, h) => add_event_handler n h true x) x0 (handlers c) in
  let x2 := events trace x1 in
  let r :=
    _ ← wait_for (frames x2 !! c);
    match frames x2 !! c ≫= error with
    | Some e => Raise e
    | None => Ok ()
    end in
  (* finally: *)
  let x3 := foldl (fun x '(n, h) => del_event_handler n h x) x2 (handlers c) in
  (x3, r).

End XmppUtils.

(* ===================================================================== *)
(** ** client.py                                                          *)
(* ===================================================================== *)

Module Client.
Import Slixmpp XmppUtils.

(** *** [datetime.datetime] and [isoformat]

    [tzinfo] is [None] for a naive value; for an aware one it is kept as
    its offset from UTC, in minutes. *)
Record datetime := DateTime {
  dt_date : Utils.date;
  hour : N; minute : N; second : N; microsecond : N;
  tzinfo : option Z
}.

Definition pad6 (n : N) : string :=
  (Utils.pad2 (n / 10000) ++ Utils.pad4 n)%N.

Definition utcoffset_text (off : Z) : string :=
  let a := Z.to_N (Z.abs off) in
  (if (off <? 0)%Z then "-" else "+")
  ++ Utils.pad2 (a / 60)%N ++ ":" ++ Utils.pad2 (a mod 60)%N.

Definition isoformat (t : datetime) : string :=
  Utils.pad4 (Utils.year (dt_date t)) ++ "-"
  ++ Utils.pad2 (Utils.month (dt_date t)) ++ "-"
  ++ Utils.pad2 (Utils.day (dt_date t)) ++ "T"
  ++ Utils.pad2 (hour t) ++ ":" ++ Utils.pad2 (minute t) ++ ":"
  ++ Utils.pad2 (second t)
  ++ (if (microsecond t =? 0)%N then "" else "." ++ pad6 (microsecond t))
  ++ match tzinfo t with
     | Some off => utcoffset_text off
     | None => ""
     end.

(** *** [xml.sax.saxutils.escape]: [&], [>] and [<] become entities. *)
Definition escape_char (c : ascii) : string :=
  if Ascii.eqb c "&" then "&amp;"
  else if Ascii.eqb c ">" then "&gt;"
  else if Ascii.eqb c "<" then "&lt;"
  else String c "".

Fixpoint escape (data : string) : string :=
  match data with
  | EmptyString => ""
  | String c rest => escape_char c ++ escape rest
  end.

(** The double quote, for the attribute values of the templates. *)
Definition dq : string := String "034"%char "".

(** *** Reading the text of a request

    [occurs p s]: the text [p] occurs in [s].  A field element of a data
    form opens with [<field var="name"]; since [escape] leaves no [<] in
    what is inserted, every such opening in a request is an element. *)
Fixpoint starts_with (p s : string) : bool :=
  match p with
  | EmptyString => true
  | String a p' =>
      match s with
      | EmptyString => false
      | String b s' => Ascii.eqb a b && starts_with p' s'
      end
  end.

Fixpoint occurs (p s : string) : bool :=
  starts_with p s ||
  match s with
  | EmptyString => false
  | String _ rest => occurs p rest
  end.

Definition field_open (var : string) : string :=
  "<field var=" ++ dq ++ var ++ dq.

Definition has_field (var doc : string) : bool := occurs (field_open var) doc.

Fixpoint lt_free (s : string) : bool :=
  match s with
  | EmptyString => true
  | String c rest => negb (Ascii.eqb c "<") && lt_free rest
  end.

(** *** [xml.etree.ElementTree.fromstring]

    The texts the package gives to [fromstring] are its literal documents,
    with escaped values inserted as character data.  Such a text fails to
    parse when it holds a character that XML does not allow; of the
    characters of the model, those of the codes below 256, these are the
    control characters other than tab, line feed and carriage return.
    The element read is kept as its text.  [ParseError] is kept by its
    class name, with the message of the parser less the line and column
    that end it. *)
Definition xml_char (c : ascii) : bool :=
  let n := N_of_ascii c in
  ((n =? 9) || (n =? 10) || (n =? 13) || (32 <=? n))%N.

Fixpoint xml_chars (s : string) : bool :=
  match s with
  | EmptyString => true
  | String c rest => xml_char c && xml_chars rest
  end.

Definition parse_error : exn :=
  OtherError "ParseError" "not well-formed (invalid token)".

Definition fromstring (text : string) : result string :=
  if xml_chars text then Ok text else Raise parse_error.

(** *** The answer to [iq.send()]

    [command] is what [response.xml.find(".//{...}command")] gives: its
    attributes and the [quoalise/data] element below it, if any. *)
Record command_elt := CommandElt {
  attrib : gmap string string;
  data_elt : option string
}.

Record response := Response {
  command : option command_elt;
  response_text : string
}.

(** Modelled from the spec: [data.py] is not part of the sources at hand.
    [Data] is the opaque artifact of the data model; [from_xml] is its
    decoding contract, kept here as the element it was given. *)
Inductive Data := from_xml (data : option string).

(** *** [IqErrorConverter] *)

(** [attrib[key]] of an element. *)
Definition getitem (d : gmap string string) (key : string) : result string :=
  match d !! key with
  | Some v => Ok v
  | None => Raise (KeyError key)
  end.

(** [IqErrorConverter.convert(ex_val)], for an [IqError] with the given
    condition, text and stanza: raises the converted error or returns. *)
Definition convert (condition text : string) (iq : iq_xml) : result () :=
  if decide (condition = "not-authorized") then Raise (NotAuthorized text)
  else if decide (condition = "service-unavailable") then
    Raise (ServiceUnavailable text)
  else if decide (condition = "bad-request") then Raise (BadRequest text)
  else if decide (condition = "undefined-condition") then
    match upstream_error iq with
    | Some upstream_attrib =>
        issuer ← getitem upstream_attrib "issuer";
        code ← getitem upstream_attrib "code";
        Raise (UpstreamError issuer code text)
    | None => Ok ()
    end
  else Ok ().

(** [__exit__(ex_type, ex_val, tb)]: [ex] is the exception that left the
    body, if any.  When [__exit__] returns, it returns [False]. *)
Definition IqErrorConverter_exit (ex : option exn) : result () :=
  match ex with
  | Some (IqError condition text iq) => convert condition text iq
  | _ => Ok ()
  end.

(** [with IqErrorConverter(): body].  An exception raised by [__exit__]
    replaces the one of the body; as [__exit__] returns [False] otherwise,
    the exception of the body goes on. *)
Definition with_IqErrorConverter {A} (body : result A) : result A :=
  match body with
  | Ok a => _ ← IqErrorConverter_exit None; Ok a
  | Raise e => _ ← IqErrorConverter_exit (Some e); Raise e
  end.

(** *** [ClientAsync] *)

Record ClientAsync := MkClientAsync {
  xmpp_client : xmpp;
  incoming_data : list Data
}.

(** [ClientAsync.__init__]. *)
Definition ClientAsync_init (xmpp_client : xmpp) : ClientAsync :=
  MkClientAsync (add_event_handler "disconnected" Reconnect false xmpp_client) [].

Definition naive_error : exn :=
  ValueError "Naive datetimes are not handled to prevent errors".

(** The literal parts of the f-strings of [get_history], in the order of
    the text: around the value of the [start_time] field, around the value
    of the [end_time] field, and around the three insertions of the
    command. *)
Definition start_time_field_head : string :=
  "
                <field var=" ++ dq ++ "start_time" ++ dq ++ " type=" ++ dq ++ "text-single" ++ dq ++ ">
                  <value>".
Definition start_time_field_tail : string :=
  "</value>
                </field>
            ".
Definition end_time_field_head : string :=
  "
                <field var=" ++ dq ++ "end_time" ++ dq ++ " type=" ++ dq ++ "text-single" ++ dq ++ ">
                  <value>".
Definition end_time_field_tail : string :=
  "</value>
                </field>
            ".
Definition get_history_head : string :=
  "
            <command
              xmlns=" ++ dq ++ "http://jabber.org/protocol/commands" ++ dq ++ "
              node=" ++ dq ++ "get_history" ++ dq ++ "
              action=" ++ dq ++ "execute" ++ dq ++ ">
              <x xmlns=" ++ dq ++ "jabber:x:data" ++ dq ++ " type=" ++ dq ++ "submit" ++ dq ++ ">
                <field var=" ++ dq ++ "identifier" ++ dq ++ " type=" ++ dq ++ "text-single" ++ dq ++ ">
                  <value>".
Definition get_history_after_identifier : string :=
  "</value>
                </field>
                ".
Definition get_history_between_times : string :=
  "
                ".
Definition get_history_tail : string :=
  "
              </x>
            </command>
        ".

Definition start_time_field_of (start_time : option datetime) : result string :=
  match start_time with
  | Some t =>
      match tzinfo t with
      | None => Raise naive_error
      | Some _ =>
          Ok (start_time_field_head ++ escape (isoformat t)
              ++ start_time_field_tail)
      end
  | None => Ok ""
  end.

Definition end_time_field_of (end_time : option datetime) : result string :=
  match end_time with
  | Some t =>
      match tzinfo t with
      | None => Raise naive_error
      | Some _ =>
          Ok (end_time_field_head ++ escape (isoformat t)
              ++ end_time_field_tail)
      end
  | None => Ok ""
  end.

Definition get_history_command (identifier start_time_field end_time_field : string)
    : string :=
  get_history_head ++ escape identifier ++ get_history_after_identifier
  ++ start_time_field ++ get_history_between_times
  ++ end_time_field ++ get_history_tail.

(** The first part of [get_history], up to [iq.append(fromstring(...))]:
    the stanza that will be sent.  The two checks of the timestamps come
    first, then [fromstring] reads the text of the command. *)
Definition get_history_request (proxy_full_jid identifier : string)
    (start_time end_time : option datetime) : result iq_stanza :=
  let iq := Iq "set" proxy_full_jid [] in
  start_time_field ← start_time_field_of start_time;
  end_time_field ← end_time_field_of end_time;
  element ←
    fromstring (get_history_command identifier start_time_field end_time_field);
  Ok (Iq (iq_type iq) (iq_to iq) (iq_children iq ++ [element])).

(** [iq.send()]: the stanza goes to the transport. *)
Definition send (iq : iq_stanza) (self : ClientAsync) : ClientAsync :=
  MkClientAsync (call (CallSend iq) (xmpp_client self)) (incoming_data self).

Definition command_status (r : response) : result string :=
  match command r with
  | Some c => getitem (attrib c) "status"
  | None => Raise (OtherError "AttributeError" "'NoneType' object has no attribute 'attrib'")
  end.

(** [get_history]; [reply] is what awaiting [iq.send()] gives.  When the
    request is not built, by a naive timestamp or by [fromstring], nothing
    is sent. *)
Definition get_history (self : ClientAsync) (proxy_full_jid identifier : string)
    (start_time end_time : option datetime) (reply : result response)
    : ClientAsync * result Data :=
  match get_history_request proxy_full_jid identifier start_time end_time with
  | Raise e => (self, Raise e)
  | Ok iq =>
      (send iq self,
       response ← with_IqErrorConverter reply;
       status ← command_status response;
       if decide (status = "completed") then
         Ok (from_xml (command response ≫= data_elt))
       else
         Raise (RuntimeError ("Unexpected iq response: " ++ response_text response)))
  end.

(** The literal parts of the f-strings of [subscribe] and [unsubscribe]. *)
Definition subscribe_head : string :=
  "
            <command
              xmlns=" ++ dq ++ "http://jabber.org/protocol/commands" ++ dq ++ "
              node=" ++ dq ++ "subscribe" ++ dq ++ "
              action=" ++ dq ++ "execute" ++ dq ++ ">
              <x xmlns=" ++ dq ++ "jabber:x:data" ++ dq ++ " type=" ++ dq ++ "submit" ++ dq ++ ">
                <field var=" ++ dq ++ "identifier" ++ dq ++ " type=" ++ dq ++ "text-single" ++ dq ++ ">
                  <value>".
Definition subscribe_tail : string :=
  "</value>
                </field>
              </x>
            </command>
        ".
Definition unsubscribe_head : string :=
  "
            <command
              xmlns=" ++ dq ++ "http://jabber.org/protocol/commands" ++ dq ++ "
              node=" ++ dq ++ "unsubscribe" ++ dq ++ "
              action=" ++ dq ++ "execute" ++ dq ++ ">
              <x xmlns=" ++ dq ++ "jabber:x:data" ++ dq ++ " type=" ++ dq ++ "submit" ++ dq ++ ">
                <field var=" ++ dq ++ "identifier" ++ dq ++ " type=" ++ dq ++ "text-single" ++ dq ++ ">
                  <value>".
Definition unsubscribe_tail : string :=
  "</value>
                </field>
              </x>
            </command>
        ".

(** [subscribe]; [reply] is what awaiting [iq.send()] gives.  When
    [fromstring] raises, nothing was sent. *)
Definition subscribe (self : ClientAsync) (proxy_full_jid identifier : string)
    (reply : result response) : ClientAsync * result () :=
  let iq := Iq "set" proxy_full_jid [] in
  match fromstring (subscribe_head ++ escape identifier ++ subscribe_tail) with
  | Raise e => (self, Raise e)
  | Ok element =>
      let iq := Iq (iq_type iq) (iq_to iq) (iq_children iq ++ [element]) in
      (send iq self,
       response ← with_IqErrorConverter reply;
       status ← command_status response;
       if decide (status = "completed") then Ok ()
       else Raise (RuntimeError
                     ("Unexpected iq response: " ++ response_text response)))
  end.

(** [unsubscribe]. *)
Definition unsubscribe (self : ClientAsync) (proxy_full_jid identifier : string)
    (reply : result response) : ClientAsync * result () :=
  let iq := Iq "set" proxy_full_jid [] in
  match fromstring (unsubscribe_head ++ escape identifier ++ unsubscribe_tail) with
  | Raise e => (self, Raise e)
  | Ok element =>
      let iq := Iq (iq_type iq) (iq_to iq) (iq_children iq ++ [element]) in
      (send iq self,
       response ← with_IqErrorConverter reply;
       status ← command_status response;
       if decide (status = "completed") then Ok ()
       else Raise (RuntimeError
                     ("Unexpected iq response: " ++ response_text response)))
  end.

(** [ClientAsync.connect]; [trace] is what the transport fires during the
    wait for the session start. *)
Definition connect (client_jid client_password : string)
    (address : option (string * string)) (priority : Z)
    (trace : list (string * string)) : result ClientAsync :=
  let x := call (CallRegisterPlugin "xep_0199") new_xmpp in
  let x := call (CallConnect address) x in
  let '(x, r) := _wait_for_session_start x trace in
  _ ← r;
  let client := ClientAsync_init x in
  let x := call (CallRegisterHandler "Quoalise Data") (xmpp_client client) in
  let x := call (CallSendPresence (Some priority)) x in
  Ok (MkClientAsync x (incoming_data client)).

(** [ClientAsync.disconnect]. *)
Definition disconnect (self : ClientAsync) : ClientAsync :=
  MkClientAsync (call CallDisconnect (xmpp_client self)) (incoming_data self).

(** [ClientAsync.__reconnect], one run of the coroutine: each element of
    [attempts] is the trace of one wait for the session start, after the
    five seconds of sleep and the call to [connect()].  The boolean tells
    whether the coroutine has returned; with the attempts used up it is
    still in its loop. *)
Fixpoint __reconnect (attempts : list (list (string * string))) (x : xmpp)
    : xmpp * bool :=
  match attempts with
  | [] => (x, false)
  | trace :: rest =>
      let x := call (CallConnect None) x in
      let '(x, r) := _wait_for_session_start x trace in
      match r with
      | Ok _ => (x, true)
      | Raise _ => __reconnect rest x
      end
  end.

(** The transport reports an event to a connected client. *)
Definition on_event (name event_data : string) (self : ClientAsync) : ClientAsync :=
  MkClientAsync (event name event_data (xmpp_client self)) (incoming_data self).

(** The reconnect loops started and not finished. *)
Definition reconnect_loops (self : ClientAsync) : nat :=
  length (tasks (xmpp_client self)).

(** *** The queue of incoming data

    [incoming_data] is an [asyncio.Queue]: [put_nowait] adds at the end,
    [get] takes from the front and waits while the queue is empty. *)

(** A message stanza, by what
    [message.xml.find("{urn:quoalise:0}quoalise/{urn:quoalise:0}data")]
    gives. *)
Record message := Message { message_data : option string }.

(** [handle_message_data]. *)
Definition handle_message_data (self : ClientAsync) (m : message) : ClientAsync :=
  MkClientAsync (xmpp_client self) (incoming_data self ++ [from_xml (message_data m)]).

(** [wait_for_data]: the item and the client without it; [None] while the
    queue is empty and the coroutine stays suspended. *)
Definition wait_for_data (self : ClientAsync) : option (Data * ClientAsync) :=
  match incoming_data self with
  | [] => None
  | d :: rest => Some (d, MkClientAsync (xmpp_client self) rest)
  end.

(** [listen], awaited [n] times: what the awaits gave, up to the first one
    that is left waiting. *)
Fixpoint listen (n : nat) (self : ClientAsync) : list Data * ClientAsync :=
  match n with
  | O => ([], self)
  | S n' =>
      match wait_for_data self with
      | None => ([], self)
      | Some (d, self') =>
          let '(ds, self'') := listen n' self' in (d :: ds, self'')
      end
  end.

End Client.

(* ===================================================================== *)
(** ** utils.py: [serialize]                                              *)
(* ===================================================================== *)

Module Serialize.
Import Client.

(** The objects [serialize] tells apart.  Modelled from the spec: [data.py]
    is not part of the sources at hand; a [Record] is kept as its
    [__dict__].  Any other object is kept as what [str] gives for it. *)
Inductive pyobj :=
  | PyDatetime (t : datetime)
  | PyDate (d : Utils.date)
  | PyRecord (dict : list (string * string))
  | PyOther (str : string).

Inductive serialized :=
  | SStr (s : string)
  | SDict (dict : list (string * string)).

Definition serialize (obj : pyobj) : serialized :=
  match obj with
  | PyDatetime t => SStr (isoformat t)
  | PyDate d => SStr (Utils.date_isoformat d)
  | PyRecord dict => SDict dict
  | PyOther str => SStr str
  end.

End Serialize.

(* ===================================================================== *)
(** ** server.py                                                          *)
(* ===================================================================== *)

Module Server.
Import Slixmpp XmppUtils Client.

(** *** [ErrorToXmppConverter] *)

(** [__exit__(ex_type, ex_val, tb)]: the comparison is on the exact type of
    the exception; [str(ex_val)] is its message.  When [__exit__] returns,
    it returns [False]. *)
Definition ErrorToXmppConverter_exit (ex : option exn) : result () :=
  match ex with
  | Some (PermissionError message) =>
      Raise (XMPPError "not-authorized" None message)
  | Some (ValueError message) =>
      Raise (XMPPError "bad-request" (Some "modify") message)
  | _ => Ok ()
  end.

Definition with_ErrorToXmppConverter {A} (body : result A) : result A :=
  match body with
  | Ok a => _ ← ErrorToXmppConverter_exit None; Ok a
  | Raise e => _ ← ErrorToXmppConverter_exit (Some e); Raise e
  end.

(** *** Data forms (XEP-0004), as far as the handlers use them *)

Record field := Field {
  var : string;
  ftype : string;
  label : string;
  desc : option string;
  required : bool;
  value : string
}.

Record Form := MkForm {
  form_type : string;
  title : string;
  fields : list field
}.

Definition make_form (ftype title : string) : Form := MkForm ftype title [].

Definition addField (f : field) (form : Form) : Form :=
  MkForm (form_type form) (title form) (fields form ++ [f]).

(** [form["values"]]: the value of each field, by its [var]. *)
Definition values (form : Form) : gmap string string :=
  foldl (fun m f => <[var f := value f]> m) ∅ (fields form).

(** *** The command session of XEP-0050: a dictionary *)

#[warnings="-register-all"]
Inductive item :=
  | VNone
  | VStr (s : string)
  | VForm (f : Form)
  | VData (d : Data)
  | VHandleSubmit                  (* the bound method [self.handle_submit] *)
  | VList (l : list item).

Definition session_getitem (session : gmap string item) (key : string)
    : result item :=
  match session !! key with
  | Some v => Ok v
  | None => Raise (KeyError key)
  end.

(** *** [CommandHandler]

    An object of a concrete subclass: the attributes set by [__init__] and
    the two methods the subclass supplies.  [fill_form] fills the form it is
    given, [execute] fills the result form and returns the data. *)
Record CommandHandler := MkCommandHandler {
  node : string;
  name : string;
  fill_form : Form -> result Form;
  execute : item -> item -> Form -> result (Form * item)
}.

(** The element [iq["command"].xml], by its children: an element is true
    when it has subelements. *)
Record command_iq := CommandIq { command_xml : list string }.

Definition has_subelements (iq : command_iq) : bool :=
  match command_xml iq with
  | [] => false
  | _ :: _ => true
  end.

Definition handle_submit (self : CommandHandler) (payload : item)
    (session : gmap string item) : result (gmap string item) :=
  let result_form := make_form "result" "Get history" in
  '(result_form, result_data) ←
    with_ErrorToXmppConverter
      (client ← session_getitem session "from";
       execute self client payload result_form);
  let session := <["next" := VNone]> session in
  let session := <["payload" := VList [VForm result_form; result_data]]> session in
  Ok session.

Definition handle_request (self : CommandHandler) (iq : command_iq)
    (session : gmap string item) : result (gmap string item) :=
  if has_subelements iq then
    payload ← session_getitem session "payload";
    handle_submit self payload session
  else
    let form := make_form "form" (name self) in
    form ← with_ErrorToXmppConverter (fill_form self form);
    let session := <["payload" := VForm form]> session in
    let session := <["next" := VHandleSubmit]> session in
    Ok session.

(** *** [ServerAsync] *)

Record ServerAsync := MkServerAsync { server_xmpp_client : xmpp }.

(** [ServerAsync.connect]; [trace] is what the transport fires during the
    wait for the session start. *)
Definition ServerAsync_connect (full_jid password : string)
    (address : option (string * string))
    (trace : list (string * string)) : result ServerAsync :=
  let x := call (CallRegisterPlugin "xep_0004") new_xmpp in
  let x := call (CallRegisterPlugin "xep_0050") x in
  let x := call (CallRegisterPlugin "xep_0199") x in
  let x := call (CallConnect address) x in
  let '(x, r) := _wait_for_session_start x trace in
  _ ← r;
  let x := call (CallSendPresence None) x in
  Ok (MkServerAsync x).

(** [ServerAsync.add_handler]: the command is registered under the node and
    the name of the handler. *)
Definition add_handler (self : ServerAsync) (handler : CommandHandler)
    : ServerAsync :=
  MkServerAsync
    (call (CallAddCommand (node handler) (name handler)) (server_xmpp_client self)).

(** *** [GetHistoryHandler] *)

Definition payload_values (payload : item) : result (gmap string string) :=
  match payload with
  | VForm f => Ok (values f)
  | _ => Raise (TypeError "payload is not subscriptable")
  end.

Section GetHistoryHandler.

(** What the application's subclass and the environment supply: the two
    abstract methods, [datetime.fromisoformat], and the clock, read as
    today's midnight in Europe/Paris ([end_time]) and the day before
    ([start_time]). *)
Variable default_identifier : result string.
Variable get_history : item -> string -> datetime -> datetime -> result item.
Variable fromisoformat : string -> result datetime.
Variables start_time end_time : datetime.

Definition GetHistoryHandler_fill_form (client_form : Form) : result Form :=
  identifier ← default_identifier;
  let client_form :=
    addField (Field "identifier" "text-single" "Identifier" None true identifier)
             client_form in
  let client_form :=
    addField (Field "start_time" "text-single" "Start date"
                    (Some "Au format ISO 8601") true (isoformat start_time))
             client_form in
  let client_form :=
    addField (Field "end_time" "text-single" "End date"
                    (Some "Au format ISO 8601") true (isoformat end_time))
             client_form in
  Ok client_form.

Definition GetHistoryHandler_execute (client payload : item) (result_form : Form)
    : result (Form * item) :=
  vals ← payload_values payload;
  identifier ← getitem vals "identifier";
  start_text ← getitem vals "start_time";
  start_time ← fromisoformat start_text;
  end_text ← getitem vals "end_time";
  end_time ← fromisoformat end_text;
  data ← get_history client identifier start_time end_time;
  let result_form :=
    addField (Field "result" "fixed" ("Get " ++ identifier) None false "Success")
             result_form in
  Ok (result_form, data).

(** The object [__init__] makes: node [get_history], name [Get history]. *)
Definition GetHistoryHandler : CommandHandler :=
  MkCommandHandler "get_history" "Get history"
    GetHistoryHandler_fill_form GetHistoryHandler_execute.

End GetHistoryHandler.

(** *** The class statements

    Which class derives from which, which methods each body defines, and
    what [__init__] does: enough to say what calling a class gives. *)
Module Class.

(** [Subclass n b ms] is a class of the application, [class n(b)], that
    defines the methods [ms] and no [__init__]. *)
Inductive class :=
  | object
  | ABC
  | CommandHandler
  | GetHistoryHandler
  | Subscribe
  | Unsubscribe
  | Subclass (name : string) (base : class) (methods : list string).

(** The method resolution order, from the bases of the class statements:
    [class CommandHandler(ABC)], [class GetHistoryHandler(CommandHandler)],
    [class Subscribe:], [class Unsubscribe:]. *)
Fixpoint mro (c : class) : list class :=
  match c with
  | object => [object]
  | ABC => [ABC; object]
  | CommandHandler => [CommandHandler; ABC; object]
  | GetHistoryHandler => [GetHistoryHandler; CommandHandler; ABC; object]
  | Subscribe => [Subscribe; object]
  | Unsubscribe => [Unsubscribe; object]
  | Subclass _ base _ => c :: mro base
  end.

(** The methods of each class body; the boolean marks [@abstractmethod]. *)
Definition own_methods (c : class) : list (string * bool) :=
  match c with
  | object => [("__init__", false)]
  | ABC => []
  | CommandHandler =>
      [("__init__", false); ("handle_request", false); ("handle_submit", false);
       ("fill_form", true); ("execute", true)]
  | GetHistoryHandler =>
      [("__init__", false); ("fill_form", false); ("execute", false);
       ("default_identifier", true); ("get_history", true)]
  | Subscribe =>
      [("__init__", false); ("fill_form", false); ("execute", false);
       ("default_identifier", true); ("subscribe", true)]
  | Unsubscribe =>
      [("__init__", false); ("fill_form", false); ("execute", false);
       ("default_identifier", true); ("unsubscribe", true)]
  | Subclass _ _ methods => map (fun m => (m, false)) methods
  end.

Definition is_ABC (c : class) : bool :=
  match c with
  | ABC => true
  | _ => false
  end.

(** Attribute lookup on the class: the first class of the order that
    defines [attr], with the abstract mark of that definition. *)
Fixpoint find_method (order : list class) (attr : string) : option (class * bool) :=
  match order with
  | [] => None
  | c :: rest =>
      match list_find (fun m => m.1 = attr) (own_methods c) with
      | Some (_, (_, abstract)) => Some (c, abstract)
      | None => find_method rest attr
      end
  end.

Definition getattr (c : class) (attr : string) : option (class * bool) :=
  find_method (mro c) attr.

Definition is_abstract (c : class) (attr : string) : bool :=
  match getattr c attr with
  | Some (_, abstract) => abstract
  | None => false
  end.

(** [__abstractmethods__], which only the metaclass of [ABC] computes: the
    names whose definition found by lookup is abstract. *)
Definition abstractmethods (c : class) : list string :=
  if existsb is_ABC (mro c) then
    List.filter (is_abstract c)
      (remove_dups (flat_map (fun k => map fst (own_methods k)) (mro c)))
  else [].

Record instance := Instance {
  class_of : class;
  attrs : gmap string string
}.

Definition kwarg (kwargs : list (string * string)) (key : string) : result string :=
  match list_find (fun kv => kv.1 = key) kwargs with
  | Some (_, (_, v)) => Ok v
  | None => Raise (TypeError ("__init__() missing 1 required positional argument: " ++ key))
  end.

(** [__init__] along the order [order], with keyword arguments [kwargs]:
    [super().__init__(...)] goes on with the rest of the order. *)
Fixpoint init (order : list class) (kwargs : list (string * string))
    (self : gmap string string) : result (gmap string string) :=
  match order with
  | [] => Ok self
  | c :: rest =>
      match c with
      | object =>
          match kwargs with
          | [] => Ok self
          | _ :: _ =>
              Raise (TypeError
                "object.__init__() takes exactly one argument (the instance to initialize)")
          end
      | ABC | Subclass _ _ _ => init rest kwargs self
      | CommandHandler =>
          node ← kwarg kwargs "node";
          name ← kwarg kwargs "name";
          Ok (<["name" := name]> (<["node" := node]> self))
      | GetHistoryHandler =>
          init rest [("node", "get_history"); ("name", "Get history")] self
      | Subscribe =>
          init rest [("node", "subscribe"); ("name", "Subscribe")] self
      | Unsubscribe =>
          init rest [("node", "unsubscribe"); ("name", "Unsubscribe")] self
      end
  end.

(** Calling the class with no argument. *)
Definition construct (c : class) : result instance :=
  match abstractmethods c with
  | _ :: _ => Raise (TypeError "Can't instantiate abstract class")
  | [] =>
      self ← init (mro c) [] ∅;
      Ok (Instance c self)
  end.

End Class.

End Server.

(* ===================================================================== *)
(** ** Notions used to state the properties                               *)
(* ===================================================================== *)

Module Notions.
Import Slixmpp XmppUtils Client Server.

(** A timestamp is naive when it is given and has no [tzinfo]. *)
Definition is_naive (o : option datetime) : bool :=
  match o with
  | Some t => match tzinfo t with None => true | Some _ => false end
  | None => false
  end.

Definition is_supplied {A} (o : option A) : bool :=
  match o with
  | Some _ => true
  | None => false
  end.

(** A time field as [get_history] writes it, or the empty text. *)
Definition field_text (head tail : string) (value : option string) : string :=
  match value with
  | Some v => head ++ escape v ++ tail
  | None => ""
  end.

(** Every end of [lit] either holds [p] or departs from it: no occurrence
    of [p] starts in [lit] and runs past its end. *)
Fixpoint closed_for (p lit : string) : bool :=
  match lit with
  | EmptyString => true
  | String _ rest =>
      (starts_with p lit || negb (starts_with lit p)) && closed_for p rest
  end.

(** The three states of the locals of a call of [_wait_for_session_start]:
    pending, started, failed with its [ConnectionFailed]. *)
Definition frame_ok (f : frame) : Prop :=
  f = Frame None None
  ∨ f = Frame (Some true) None
  ∨ ∃ message, f = Frame (Some false) (Some (ConnectionFailed message)).

Definition frames_ok (x : xmpp) : Prop := Forall frame_ok (frames x).

(** None of the four session-start events is in the trace. *)
Definition no_start_signal (trace : list (string * string)) : Prop :=
  Forall (fun ev => ∀ k, ev.1 ≠ signal_name k) trace.

(** The errors the table of conversions lists on the client side: an
    [IqError] with one of the three plain conditions, or with
    [undefined-condition] and an [upstream-error] element. *)
Definition client_converts (e : exn) : bool :=
  match e with
  | IqError condition _ iq =>
      bool_decide (condition = "not-authorized")
      || bool_decide (condition = "service-unavailable")
      || bool_decide (condition = "bad-request")
      || (bool_decide (condition = "undefined-condition")
          && is_supplied (upstream_error iq))
  | _ => false
  end.

(** The exceptions the table lists on the server side. *)
Definition server_converts (e : exn) : bool :=
  match e with
  | PermissionError _ | ValueError _ => true
  | _ => false
  end.

End Notions.

Module MoreNotions.
Import Slixmpp XmppUtils Client Server.

(** The writings of a month and of a day that [strptime] reads: two
    digits, or the number as it is, or for a day below ten a space and the
    digit. *)
Definition month_texts (m : N) : list string :=
  [Utils.pad2 m; Utils.decimal m].

Definition day_texts (d : N) : list string :=
  [Utils.pad2 d; Utils.decimal d]
  ++ (if (d <? 10)%N then [" " ++ Utils.decimal d] else []).

Definition signal_of_name (n : string) : option signal :=
  if decide (n = "session_start") then Some SessionStart
  else if decide (n = "session_end") then Some SessionEnd
  else if decide (n = "connection_failed") then Some ConnectionFailedSig
  else if decide (n = "failed_auth") then Some FailedAuth
  else None.

(** The first of the four session-start events of a trace, with its data. *)
Fixpoint first_signal (trace : list (string * string)) : option (signal * string) :=
  match trace with
  | [] => None
  | (n, d) :: rest =>
      match signal_of_name n with
      | Some k => Some (k, d)
      | None => first_signal rest
      end
  end.

(** What a wait for the session start comes to, by the first signal. *)
Definition outcome (first : option (signal * string)) : result () :=
  match first with
  | None => Raise TimeoutError
  | Some (SessionStart, _) => Ok ()
  | Some (SessionEnd, _) =>
      Raise (ConnectionFailed "XMPP server ended the session")
  | Some (ConnectionFailedSig, event_data) =>
      Raise (ConnectionFailed ("XMPP server is not reachable, " ++ event_data))
  | Some (FailedAuth, _) =>
      Raise (ConnectionFailed "Invalid username or password")
  end.

Definition succeeds (trace : list (string * string)) : bool :=
  match first_signal trace with
  | Some (SessionStart, _) => true
  | _ => false
  end.

(** The listeners of the calls to come are not registered yet: a closure
    on the bus belongs to a call that was made. *)
Definition listeners_known (x : xmpp) : Prop :=
  ∀ e c k, e ∈ event_handlers x -> e.1.2 = Waiter c k -> c < length (frames x).

(** While the future of the call numbered [c] is pending, the four
    listeners of the call are registered, each under its own event. *)
Definition pending (c : nat) (x : xmpp) : Prop :=
  frames x !! c = Some (Frame None None)
  ∧ (∀ e k, e ∈ event_handlers x -> e.1.2 = Waiter c k ->
            e = (signal_name k, Waiter c k, true))
  ∧ (∀ k, (signal_name k, Waiter c k, true) ∈ event_handlers x).

(** The locals of a call once the first signal, if any, has fired. *)
Definition frame_of (first : option (signal * string)) : frame :=
  match first with
  | None => Frame None None
  | Some (k, d) => run_waiter k d (Frame None None)
  end.

(** The attempts [__reconnect] makes: up to the first that succeeds. *)
Fixpoint attempts_made (attempts : list (list (string * string))) : nat :=
  match attempts with
  | [] => 0
  | trace :: rest => S (if succeeds trace then 0 else attempts_made rest)
  end.

(** The error [ErrorToXmppConverter] lets out for an error of the body. *)
Definition to_xmpp (e : exn) : exn :=
  match e with
  | PermissionError message => XMPPError "not-authorized" None message
  | ValueError message => XMPPError "bad-request" (Some "modify") message
  | _ => e
  end.

(** [occurrences p s]: how many times the text [p] occurs in [s]. *)
Fixpoint occurrences (p s : string) : nat :=
  (if starts_with p s then 1 else 0)
  + match s with
    | EmptyString => 0
    | String _ rest => occurrences p rest
    end.

(** The field elements of a request: the openings [<field ]. *)
Definition field_elements (doc : string) : nat := occurrences "<field " doc.

(** The opening of the command element of a request, up to its node. *)
Definition command_open (node : string) : string :=
  "<command
              xmlns=" ++ dq ++ "http://jabber.org/protocol/commands" ++ dq ++ "
              node=" ++ dq ++ node ++ dq.

Definition has_command (node doc : string) : bool :=
  occurs (command_open node) doc.

End MoreNotions.

(* ===================================================================== *)
(** ** Properties                                                         *)
(* ===================================================================== *)

(** Linear arithmetic with division and remainder by constants. *)
Ltac div_lia := zify; Z.to_euclidean_division_equations; lia.

(** *** Texts *)

Lemma append_cons c s t : String c s ++ t = String c (s ++ t).
Proof. reflexivity. Qed.

Lemma append_nil t : "" ++ t = t.
Proof. reflexivity. Qed.

Lemma append_assoc (a b c : string) : (a ++ b) ++ c = a ++ (b ++ c).
Proof. induction a as [|x a IH]; [reflexivity|]. now rewrite !append_cons, IH. Qed.

(** *** utils.py: the two date conversions *)

Module UtilsFacts.
Import Utils.
Local Open Scope N_scope.

(** Case analysis on a number known to be small: its binary digits. *)
Ltac upto15 m :=
  destruct m as [|m]; [|do 4 (try destruct m as [m|m|])].

Ltac upto31 m :=
  destruct m as [|m]; [|do 5 (try destruct m as [m|m|])].

Lemma digit_val_char n : n < 10 -> digit_val (digit_char n) = Some n.
Proof. intros H. upto15 n; try lia; reflexivity. Qed.

Lemma digit_val_inv c n : digit_val c = Some n -> c = digit_char n /\ n < 10.
Proof.
  unfold digit_val, digit_char.
  destruct (_ && _) eqn:E; [|discriminate].
  intros [= <-].
  apply andb_prop in E as [E1 E2].
  apply N.leb_le in E1, E2.
  split; [|lia].
  replace (48 + (N_of_ascii c - 48)) with (N_of_ascii c) by lia.
  symmetry. apply ascii_N_embedding.
Qed.

Lemma to_digits_pad4 fuel y :
  (4 <= fuel)%nat -> 1000 <= y <= 9999 -> to_digits fuel y "" = pad4 y.
Proof.
  intros Hf Hy.
  destruct fuel as [|[|[|[|fuel]]]]; try lia.
  unfold pad4, pad2. cbn [to_digits].
  assert ((y / 10 =? 0) = false) as -> by (apply N.eqb_neq; div_lia).
  assert ((y / 10 / 10 =? 0) = false) as -> by (apply N.eqb_neq; div_lia).
  assert ((y / 10 / 10 / 10 =? 0) = false) as -> by (apply N.eqb_neq; div_lia).
  assert (y / 10 / 10 / 10 mod 10 = y / 1000 mod 10) as -> by div_lia.
  assert (y / 10 / 10 mod 10 = y / 100 mod 10) as -> by div_lia.
  destruct fuel; cbn [to_digits];
    destruct (_ =? 0) eqn:E; try reflexivity;
    apply N.eqb_neq in E; div_lia.
Qed.

Lemma strftime_Y_pad4 pads y : 1000 <= y <= 9999 -> strftime_Y pads y = pad4 y.
Proof.
  intros Hy. destruct pads; [reflexivity|].
  apply to_digits_pad4; lia.
Qed.

Lemma re_m_pad2 {A} (K : N -> string -> list A) m rest :
  1 <= m <= 12 ->
  flat_map (fun '(m', s3) => flat_map (K m') (lit "-" s3))
           (re_m (pad2 m ++ "-" ++ rest)) = K m rest.
Proof.
  intros Hm. upto31 m; try lia; cbv -[app flat_map lit]; simpl; rewrite ?app_nil_r; reflexivity.
Qed.

Lemma re_d_pad2 d :
  1 <= d <= 31 -> exists tl, re_d (pad2 d) = (d, "") :: tl.
Proof.
  intros Hd. upto31 d; try lia; vm_compute; eexists; reflexivity.
Qed.

Lemma re_Y_digits a b c e rest :
  a < 10 -> b < 10 -> c < 10 -> e < 10 ->
  re_Y (String (digit_char a) (String (digit_char b)
          (String (digit_char c) (String (digit_char e) rest))))
  = [(1000 * a + 100 * b + 10 * c + e, rest)].
Proof.
  intros. unfold re_Y. now rewrite !digit_val_char.
Qed.

Lemma lit_hd c rest : lit c (String c rest) = [rest].
Proof. unfold lit. now rewrite Ascii.eqb_refl. Qed.

Lemma re_Y_pad4 y rest : y <= 9999 -> re_Y (pad4 y ++ rest) = [(y, rest)].
Proof.
  intros Hy. unfold pad4, pad2. rewrite !append_cons, append_nil.
  rewrite re_Y_digits by div_lia.
  do 2 f_equal. div_lia.
Qed.

(** Formatting then parsing gives the date back, from the year 1000 on. *)
Lemma parse_format_iso_date pads d :
  valid_date d = true -> 1000 <= year d ->
  parse_iso_date (format_iso_date pads d) = Ok d.
Proof.
  destruct d as [y m dd]. intros Hv Hy. cbn [year] in Hy.
  pose proof Hv as Hv'. unfold valid_date in Hv'. cbn [year month day] in Hv'.
  repeat (apply andb_prop in Hv' as [Hv' ?]).
  repeat match goal with
         | H : (_ <=? _) = true |- _ => apply N.leb_le in H
         end.
  assert (dd <= 31) by (unfold days_in_month in *; repeat case_match; lia).
  unfold format_iso_date, parse_iso_date, re_match. cbn [year month day].
  rewrite strftime_Y_pad4 by lia.
  rewrite re_Y_pad4 by lia.
  cbn [flat_map]. rewrite append_cons, append_nil, lit_hd.
  cbn [flat_map]. rewrite !app_nil_r.
  rewrite (re_m_pad2 (fun m' s4 => map (fun '(d, s5) => (y, m', d, s5)) (re_d s4)))
    by lia.
  destruct (re_d_pad2 dd) as [tl ->]; [lia|].
  cbn [map String.eqb]. unfold make_date. now rewrite Hv.
Qed.

Lemma re_m_two {A} (K : N -> string -> list A) f g rest :
  f < 10 -> g < 10 ->
  flat_map (fun '(m', s3) => flat_map (K m') (lit "-" s3))
           (re_m (String (digit_char f) (String (digit_char g) (String "-" rest))))
  = if (1 <=? 10 * f + g) && (10 * f + g <=? 12) then K (10 * f + g) rest else [].
Proof.
  intros Hf Hg. upto15 f; try lia; upto15 g; try lia;
    cbv -[app flat_map lit]; simpl; rewrite ?app_nil_r; reflexivity.
Qed.

Lemma re_d_two h i :
  h < 10 -> i < 10 ->
  match re_d (String (digit_char h) (String (digit_char i) "")) with
  | (v, "") :: _ => v = 10 * h + i
  | _ => True
  end.
Proof.
  intros Hh Hi. upto15 h; try lia; upto15 i; try lia; vm_compute; auto.
Qed.

Lemma pad4_digits a b c e :
  a < 10 -> b < 10 -> c < 10 -> e < 10 ->
  pad4 (1000 * a + 100 * b + 10 * c + e)
  = String (digit_char a) (String (digit_char b)
      (String (digit_char c) (String (digit_char e) ""))).
Proof.
  intros. unfold pad4, pad2. repeat f_equal; div_lia.
Qed.

Lemma pad2_digits f g :
  f < 10 -> g < 10 ->
  pad2 (10 * f + g) = String (digit_char f) (String (digit_char g) "").
Proof.
  intros. unfold pad2. repeat f_equal; div_lia.
Qed.

Lemma is_digit_inv c : is_digit c = true -> exists n, n < 10 /\ c = digit_char n.
Proof.
  unfold is_digit. destruct (digit_val c) as [n|] eqn:E; [|discriminate].
  intros _. apply digit_val_inv in E as [-> ?]. eauto.
Qed.

(** Parsing then formatting gives the text back when the text has the
    shape [format_iso_date] writes. *)
Lemma format_parse_iso_date pads s d :
  iso_shape s = true -> parse_iso_date s = Ok d -> 1000 <= year d ->
  format_iso_date pads d = s.
Proof.
  intros Hs Hp Hy.
  do 10 (destruct s as [|? s]; [discriminate|]).
  destruct s; [|discriminate].
  cbn [iso_shape] in Hs.
  repeat (apply andb_prop in Hs as [Hs ?]).
  repeat match goal with
         | H : is_digit _ = true |- _ =>
             apply is_digit_inv in H as (? & ? & ->)
         | H : Ascii.eqb _ _ = true |- _ => apply Ascii.eqb_eq in H as ->
         end.
  unfold parse_iso_date, re_match in Hp.
  rewrite re_Y_digits in Hp by assumption.
  cbn [flat_map] in Hp. rewrite lit_hd in Hp.
  cbn [flat_map] in Hp. rewrite !app_nil_r in Hp.
  rewrite (re_m_two (fun m' s4 =>
             map (fun '(d, s5) => (_, m', d, s5)) (re_d s4))) in Hp by assumption.
  destruct (_ && _) eqn:Hm in Hp; [|discriminate].
  match type of Hp with
  | context [re_d (String (digit_char ?h) (String (digit_char ?i) ""))] =>
      pose proof (re_d_two h i ltac:(assumption) ltac:(assumption)) as Hd
  end.
  destruct (re_d _) as [|[v r] tl]; [discriminate|].
  cbn [map] in Hp.
  destruct r; [|discriminate].
  cbn [String.eqb] in Hp. subst v.
  unfold make_date in Hp. destruct (valid_date _); [|discriminate].
  injection Hp as <-. cbn [year] in Hy.
  unfold format_iso_date. cbn [year month day].
  rewrite strftime_Y_pad4 by lia.
  rewrite pad4_digits, !pad2_digits by assumption.
  reflexivity.
Qed.

(** C10, as stated, fails in both directions: [parse_iso_date] accepts a
    month and a day of one digit, which [format_iso_date] never writes; and
    where the C library prints a year below 1000 without padding,
    [parse_iso_date] refuses what [format_iso_date] wrote. *)
Lemma iso_date_not_inverse :
  ¬ (∀ pads s d, parse_iso_date s = Ok d -> format_iso_date pads d = s)
  ∧ ¬ (∀ pads d, valid_date d = true ->
         parse_iso_date (format_iso_date pads d) = Ok d).
Proof.
  split.
  - intros H. specialize (H true "2024-1-5" (Date 2024 1 5) eq_refl).
    vm_compute in H. discriminate H.
  - intros H. specialize (H false (Date 999 1 1) eq_refl).
    vm_compute in H. discriminate H.
Qed.

(** C10 (amended).  From the year 1000 on, [parse_iso_date] gives back
    every date [format_iso_date] wrote; and [format_iso_date] gives back
    every text [parse_iso_date] accepted that is made of four digits, a
    hyphen, two digits, a hyphen and two digits. *)
Theorem iso_date_roundtrip pads d s :
  (valid_date d = true -> 1000 <= year d ->
   parse_iso_date (format_iso_date pads d) = Ok d)
  ∧ (iso_shape s = true -> parse_iso_date s = Ok d -> 1000 <= year d ->
     format_iso_date pads d = s).
Proof.
  split.
  - apply parse_format_iso_date.
  - apply format_parse_iso_date.
Qed.

Lemma iso_date_roundtrip_witness :
  parse_iso_date (format_iso_date false (Date 2024 2 29)) = Ok (Date 2024 2 29)
  ∧ format_iso_date false (Date 2024 2 29) = "2024-02-29".
Proof.
  split.
  - apply (proj1 (iso_date_roundtrip false (Date 2024 2 29) "2024-02-29")).
    + reflexivity.
    + cbn. lia.
  - apply (proj2 (iso_date_roundtrip false (Date 2024 2 29) "2024-02-29")).
    + reflexivity.
    + reflexivity.
    + cbn. lia.
Defined.

End UtilsFacts.

(** *** client.py: the request of [get_history] *)

Module RequestFacts.
Import Slixmpp XmppUtils Client Notions.

Lemma lt_free_app a b : lt_free (a ++ b) = lt_free a && lt_free b.
Proof.
  induction a as [|x a IH]; [reflexivity|].
  rewrite append_cons. cbn [lt_free]. now rewrite IH, andb_assoc.
Qed.

Lemma escape_lt_free s : lt_free (escape s) = true.
Proof.
  induction s as [|c s IH]; [reflexivity|].
  cbn [escape]. rewrite lt_free_app, IH, andb_true_r.
  unfold escape_char.
  destruct (Ascii.eqb c "&"); [reflexivity|].
  destruct (Ascii.eqb c ">"); [reflexivity|].
  destruct (Ascii.eqb c "<") eqn:E; [reflexivity|].
  cbn [lt_free]. now rewrite E.
Qed.

(** No occurrence of a text that opens with [<] starts inside a text
    without [<]. *)
Lemma occurs_lt_free p t u :
  lt_free t = true -> occurs (String "<" p) (t ++ u) = occurs (String "<" p) u.
Proof.
  induction t as [|c t IH]; [reflexivity|].
  cbn [lt_free]. intros [Hc Ht]%andb_prop.
  rewrite append_cons. cbn [occurs starts_with].
  rewrite Ascii.eqb_sym. apply negb_true_iff in Hc. rewrite Hc.
  cbn [andb orb]. auto.
Qed.

Lemma starts_with_app_false p s u :
  starts_with s p = false -> starts_with p (s ++ u) = starts_with p s.
Proof.
  revert s. induction p as [|a p IH]; intros s H.
  - destruct s; [discriminate H | reflexivity].
  - destruct s as [|b s]; [discriminate H|].
    rewrite append_cons. cbn [starts_with] in *.
    rewrite (Ascii.eqb_sym a b).
    destruct (Ascii.eqb b a); [|reflexivity].
    cbn [andb] in *. auto.
Qed.

Lemma starts_with_app_true p s u :
  starts_with p s = true -> starts_with p (s ++ u) = true.
Proof.
  revert s. induction p as [|a p IH]; intros s H; [reflexivity|].
  destruct s as [|b s]; [discriminate H|].
  rewrite append_cons. cbn [starts_with] in *.
  apply andb_prop in H as [-> H]. cbn [andb]. auto.
Qed.

Lemma occurs_literal p lit u :
  closed_for (String "<" p) lit = true ->
  occurs (String "<" p) (lit ++ u)
  = occurs (String "<" p) lit || occurs (String "<" p) u.
Proof.
  induction lit as [|c lit IH].
  - intros _. rewrite append_nil. reflexivity.
  - cbn [closed_for]. intros [Hc Hl]%andb_prop.
    rewrite append_cons. cbn [occurs]. rewrite <- append_cons.
    rewrite IH by assumption. rewrite orb_assoc. f_equal. f_equal.
    destruct (starts_with (String "<" p) (String c lit)) eqn:E.
    + now apply starts_with_app_true.
    + cbn [orb] in Hc. apply negb_true_iff in Hc.
      rewrite starts_with_app_false by assumption. exact E.
Qed.

Lemma is_supplied_fmap {A B} (f : A -> B) (o : option A) :
  is_supplied (f <$> o) = is_supplied o.
Proof. now destruct o. Qed.

Lemma occurs_field_text p head tail value u :
  closed_for (String "<" p) head = true ->
  closed_for (String "<" p) tail = true ->
  occurs (String "<" p) (field_text head tail value ++ u)
  = (is_supplied value
     && (occurs (String "<" p) head || occurs (String "<" p) tail))
    || occurs (String "<" p) u.
Proof.
  intros Hh Ht. destruct value as [v|]; [|reflexivity].
  unfold field_text. rewrite !append_assoc.
  rewrite occurs_literal by assumption.
  rewrite occurs_lt_free by apply escape_lt_free.
  rewrite occurs_literal by assumption.
  cbn [andb]. now rewrite orb_assoc.
Qed.

Lemma occurs_get_history_command p identifier start_value end_value :
  forallb (closed_for (String "<" p))
    [get_history_head; get_history_after_identifier; start_time_field_head;
     start_time_field_tail; get_history_between_times; end_time_field_head;
     end_time_field_tail] = true ->
  occurs (String "<" p)
    (get_history_command identifier
       (field_text start_time_field_head start_time_field_tail start_value)
       (field_text end_time_field_head end_time_field_tail end_value))
  = occurs (String "<" p) get_history_head
    || (occurs (String "<" p) get_history_after_identifier
    || ((is_supplied start_value
         && (occurs (String "<" p) start_time_field_head
             || occurs (String "<" p) start_time_field_tail))
    || (occurs (String "<" p) get_history_between_times
    || ((is_supplied end_value
         && (occurs (String "<" p) end_time_field_head
             || occurs (String "<" p) end_time_field_tail))
    || occurs (String "<" p) get_history_tail)))).
Proof.
  cbn [forallb]. intros H.
  repeat (apply andb_prop in H as [? H]).
  unfold get_history_command.
  rewrite (occurs_literal _ get_history_head) by assumption.
  rewrite occurs_lt_free by apply escape_lt_free.
  rewrite (occurs_literal _ get_history_after_identifier) by assumption.
  rewrite occurs_field_text by assumption.
  rewrite (occurs_literal _ get_history_between_times) by assumption.
  rewrite occurs_field_text by assumption.
  reflexivity.
Qed.

(** *** What [fromstring] reads *)

Lemma xml_chars_app a b : xml_chars (a ++ b) = xml_chars a && xml_chars b.
Proof.
  induction a as [|x a IH]; [reflexivity|].
  rewrite append_cons. cbn [xml_chars]. now rewrite IH, andb_assoc.
Qed.

(** [escape] neither adds nor removes a character that XML refuses. *)
Lemma xml_chars_escape s : xml_chars (escape s) = xml_chars s.
Proof.
  induction s as [|c s IH]; [reflexivity|].
  cbn [escape xml_chars]. rewrite xml_chars_app, IH. f_equal.
  unfold escape_char.
  destruct (Ascii.eqb_spec c "&") as [->|]; [reflexivity|].
  destruct (Ascii.eqb_spec c ">") as [->|]; [reflexivity|].
  destruct (Ascii.eqb_spec c "<") as [->|]; [reflexivity|].
  cbn [xml_chars]. apply andb_true_r.
Qed.

Lemma xml_char_digit n : (n < 10)%N -> xml_char (Utils.digit_char n) = true.
Proof. intros H. UtilsFacts.upto15 n; try lia; reflexivity. Qed.

Lemma xml_chars_pad2 n : xml_chars (Utils.pad2 n) = true.
Proof.
  unfold Utils.pad2. cbn [xml_chars].
  rewrite !xml_char_digit by div_lia. reflexivity.
Qed.

Lemma xml_chars_pad4 n : xml_chars (Utils.pad4 n) = true.
Proof.
  unfold Utils.pad4. cbn [xml_chars].
  rewrite xml_chars_pad2, !xml_char_digit by div_lia. reflexivity.
Qed.

(** The text of a timestamp is made of digits and punctuation. *)
Lemma xml_chars_isoformat t : xml_chars (isoformat t) = true.
Proof.
  unfold isoformat, pad6, utcoffset_text.
  destruct (microsecond t =? 0)%N; destruct (tzinfo t) as [off|];
    try destruct (off <? 0)%Z;
    rewrite !xml_chars_app, ?xml_chars_pad2, ?xml_chars_pad4; reflexivity.
Qed.

Lemma xml_chars_field_text head tail (value : option datetime) :
  xml_chars head = true -> xml_chars tail = true ->
  xml_chars (field_text head tail (isoformat <$> value)) = true.
Proof.
  intros Hh Ht. destruct value as [t|]; [|reflexivity].
  cbn [fmap option_fmap option_map field_text].
  now rewrite !xml_chars_app, xml_chars_escape, xml_chars_isoformat, Hh, Ht.
Qed.

(** A request with one insertion reads as its identifier does. *)
Lemma xml_chars_simple head identifier tail :
  xml_chars head = true -> xml_chars tail = true ->
  xml_chars (head ++ escape identifier ++ tail) = xml_chars identifier.
Proof.
  intros Hh Ht. rewrite !xml_chars_app, xml_chars_escape, Hh, Ht.
  cbn [andb]. apply andb_true_r.
Qed.

Lemma xml_chars_get_history_command identifier start_time end_time :
  xml_chars
    (get_history_command identifier
       (field_text start_time_field_head start_time_field_tail
                   (isoformat <$> start_time))
       (field_text end_time_field_head end_time_field_tail
                   (isoformat <$> end_time)))
  = xml_chars identifier.
Proof.
  unfold get_history_command.
  rewrite !xml_chars_app, xml_chars_escape.
  rewrite !xml_chars_field_text by (vm_compute; reflexivity).
  assert (xml_chars get_history_head = true) as -> by (vm_compute; reflexivity).
  assert (xml_chars get_history_after_identifier = true) as ->
    by (vm_compute; reflexivity).
  assert (xml_chars get_history_between_times = true) as ->
    by (vm_compute; reflexivity).
  assert (xml_chars get_history_tail = true) as -> by (vm_compute; reflexivity).
  cbn [andb]. apply andb_true_r.
Qed.

Lemma start_time_field_of_eq start_time :
  start_time_field_of start_time
  = if is_naive start_time then Raise naive_error
    else Ok (field_text start_time_field_head start_time_field_tail
                        (isoformat <$> start_time)).
Proof.
  destruct start_time as [s|]; [|reflexivity].
  unfold start_time_field_of, is_naive. now destruct (tzinfo s).
Qed.

Lemma end_time_field_of_eq end_time :
  end_time_field_of end_time
  = if is_naive end_time then Raise naive_error
    else Ok (field_text end_time_field_head end_time_field_tail
                        (isoformat <$> end_time)).
Proof.
  destruct end_time as [e|]; [|reflexivity].
  unfold end_time_field_of, is_naive. now destruct (tzinfo e).
Qed.

(** The three outcomes of building the request, in the order of the code:
    the checks of the timestamps, then the reading of the command. *)
Lemma get_history_request_eq jid identifier start_time end_time :
  get_history_request jid identifier start_time end_time
  = if is_naive start_time || is_naive end_time then Raise naive_error
    else if xml_chars identifier then
      Ok (Iq "set" jid
            [get_history_command identifier
               (field_text start_time_field_head start_time_field_tail
                           (isoformat <$> start_time))
               (field_text end_time_field_head end_time_field_tail
                           (isoformat <$> end_time))])
    else Raise parse_error.
Proof.
  unfold get_history_request.
  rewrite start_time_field_of_eq, end_time_field_of_eq.
  destruct (is_naive start_time); [reflexivity|].
  destruct (is_naive end_time); [reflexivity|].
  cbn [orb mbind result_bind]. unfold fromstring.
  rewrite xml_chars_get_history_command.
  now destruct (xml_chars identifier).
Qed.

Lemma get_history_request_ok jid identifier start_time end_time iq :
  get_history_request jid identifier start_time end_time = Ok iq ->
  iq = Iq "set" jid
         [get_history_command identifier
            (field_text start_time_field_head start_time_field_tail
                        (isoformat <$> start_time))
            (field_text end_time_field_head end_time_field_tail
                        (isoformat <$> end_time))].
Proof.
  rewrite get_history_request_eq.
  destruct (is_naive start_time || is_naive end_time); [discriminate|].
  destruct (xml_chars identifier); [|discriminate].
  now intros [= <-].
Qed.

(** C8.  In the request [get_history] builds, the [identifier] field is
    always there, and the [start_time] field (respectively [end_time]) is
    there exactly when the time was supplied: when it was not, the request
    has no such field element at all. *)
Theorem get_history_fields jid identifier start_time end_time iq :
  get_history_request jid identifier start_time end_time = Ok iq ->
  exists doc,
    iq_children iq = [doc]
    /\ has_field "identifier" doc = true
    /\ has_field "start_time" doc = is_supplied start_time
    /\ has_field "end_time" doc = is_supplied end_time.
Proof.
  intros ->%get_history_request_ok. eexists. split; [reflexivity|].
  unfold has_field, field_open. rewrite !append_cons.
  rewrite !occurs_get_history_command by (vm_compute; reflexivity).
  rewrite !is_supplied_fmap.
  split; [|split].
  - destruct start_time, end_time; vm_compute; reflexivity.
  - destruct start_time, end_time; vm_compute; reflexivity.
  - destruct start_time, end_time; vm_compute; reflexivity.
Qed.

(** C7.  When [start_time] or [end_time] is given without [tzinfo],
    [get_history] raises [ValueError]: no command is built, and the client
    is as it was, so nothing was sent; this holds whatever the identifier
    is, the checks coming first.  When neither is naive the check is
    passed: what follows is the reading of the command by [fromstring],
    after which the request is sent, or, for an identifier with a
    character XML refuses, [ParseError] is raised and nothing is sent. *)
Theorem get_history_naive_check self jid identifier start_time end_time reply :
  (is_naive start_time || is_naive end_time = true ->
     get_history_request jid identifier start_time end_time = Raise naive_error
     /\ get_history self jid identifier start_time end_time reply
        = (self, Raise naive_error))
  /\ (is_naive start_time || is_naive end_time = false ->
      (xml_chars identifier = true ->
         exists iq,
           get_history_request jid identifier start_time end_time = Ok iq
           /\ (get_history self jid identifier start_time end_time reply).1
              = send iq self)
      /\ (xml_chars identifier = false ->
            get_history_request jid identifier start_time end_time
            = Raise parse_error
            /\ get_history self jid identifier start_time end_time reply
               = (self, Raise parse_error))).
Proof.
  unfold get_history. rewrite get_history_request_eq.
  split; [intros ->; now split|].
  intros ->. split; intros ->; [eexists|]; now split.
Qed.

Lemma get_history_naive_check_witness :
  get_history (ClientAsync_init new_xmpp) "proxy@host/r" "urn:dev:1"
    (Some (DateTime (Utils.Date 2024 1 5) 0 0 0 0 None)) None
    (Raise TimeoutError)
  = (ClientAsync_init new_xmpp, Raise naive_error).
Proof.
  apply (get_history_naive_check (ClientAsync_init new_xmpp) "proxy@host/r"
           "urn:dev:1" (Some (DateTime (Utils.Date 2024 1 5) 0 0 0 0 None)) None
           (Raise TimeoutError)).
  reflexivity.
Defined.

Lemma get_history_fields_witness :
  ∃ doc,
    iq_children
      (Iq "set" "proxy@host/r"
         [get_history_command "urn:dev:1"
            (field_text start_time_field_head start_time_field_tail None)
            (field_text end_time_field_head end_time_field_tail
               (Some (isoformat
                        (DateTime (Utils.Date 2024 1 5) 0 0 0 0 (Some 60%Z)))))])
    = [doc]
    ∧ has_field "identifier" doc = true
    ∧ has_field "start_time" doc = false
    ∧ has_field "end_time" doc = true.
Proof.
  apply (get_history_fields "proxy@host/r" "urn:dev:1" None
           (Some (DateTime (Utils.Date 2024 1 5) 0 0 0 0 (Some 60%Z)))).
  reflexivity.
Defined.

End RequestFacts.

(** *** xmpp_utils.py and client.py: the session *)

Module SessionFacts.
Import Slixmpp XmppUtils Client Server Notions.

Section EventBus.

Implicit Types (x : xmpp) (e : string * handler * bool).

Lemma run_handler_handlers h d x :
  event_handlers (run_handler h d x) = event_handlers x.
Proof.
  destruct h as [c k|]; cbn [run_handler]; [|reflexivity].
  now destruct (frames x !! c).
Qed.

Lemma run_handler_tasks h d x :
  iscoroutinefunction h = false -> tasks (run_handler h d x) = tasks x.
Proof.
  destruct h as [c k|]; [|discriminate]. intros _. cbn [run_handler].
  now destruct (frames x !! c).
Qed.

Lemma fired_handlers d (fired : list (string * handler * bool)) x :
  event_handlers (foldl (fun x '(_, h, _) => run_handler h d x) x fired)
  = event_handlers x.
Proof.
  revert x. induction fired as [|[[n h] b] fired IH]; intros x; [reflexivity|].
  cbn [foldl]. now rewrite IH, run_handler_handlers.
Qed.

Lemma event_handlers_event n d x :
  event_handlers (event n d x)
  = filter (fun '(n', _, b) => ¬ (n' = n ∧ b = true)) (event_handlers x).
Proof. unfold event. cbn [with_handlers event_handlers]. now rewrite fired_handlers. Qed.

Lemma elem_of_event n d x e :
  e ∈ event_handlers (event n d x) -> e ∈ event_handlers x.
Proof. rewrite event_handlers_event, list_elem_of_filter. tauto. Qed.

Lemma elem_of_events trace x e :
  e ∈ event_handlers (events trace x) -> e ∈ event_handlers x.
Proof.
  revert x. induction trace as [|[n d] trace IH]; intros x; [done|].
  cbn [events foldl]. intros H. apply IH in H. eauto using elem_of_event.
Qed.

Lemma elem_of_del n h x e :
  e ∈ event_handlers (del_event_handler n h x)
  <-> e ∈ event_handlers x ∧ ¬ (e.1.1 = n ∧ e.1.2 = h).
Proof.
  unfold del_event_handler. cbn [with_handlers event_handlers].
  rewrite list_elem_of_filter. destruct e as [[n' h'] b]. tauto.
Qed.

(** What is registered when [_wait_for_session_start] returns or raises
    was registered before the call, and is none of the call's listeners. *)
Lemma elem_of_wait xc trace e :
  e ∈ event_handlers (_wait_for_session_start xc trace).1 ->
  e ∈ event_handlers xc
  ∧ ∀ k, ¬ (e.1.1 = signal_name k ∧ e.1.2 = Waiter (length (frames xc)) k).
Proof.
  unfold _wait_for_session_start, handlers. cbn [fst map foldl].
  rewrite !elem_of_del. intros [[[[H H1] H2] H3] H4].
  apply elem_of_events in H.
  unfold add_event_handler in H. cbn [with_handlers with_frames event_handlers] in H.
  assert (∀ k, ¬ (e.1.1 = signal_name k ∧ e.1.2 = Waiter (length (frames xc)) k))
    as Hk by (intros []; assumption).
  split; [|exact Hk].
  rewrite !elem_of_app, !list_elem_of_singleton in H.
  destruct H as [[[[H | ->] | ->] | ->] | ->]; [assumption|..].
  - destruct (Hk SessionStart); done.
  - destruct (Hk SessionEnd); done.
  - destruct (Hk ConnectionFailedSig); done.
  - destruct (Hk FailedAuth); done.
Qed.

Lemma fired_tasks d (fired : list (string * handler * bool)) x :
  Forall (fun e => iscoroutinefunction e.1.2 = false) fired ->
  tasks (foldl (fun x '(_, h, _) => run_handler h d x) x fired) = tasks x.
Proof.
  intros H. revert x.
  induction H as [|[[n h] b] fired Hh _ IH]; intros x; [reflexivity|].
  cbn [foldl]. now rewrite IH, run_handler_tasks.
Qed.

Lemma event_tasks n d x :
  Forall (fun e => iscoroutinefunction e.1.2 = false) (event_handlers x) ->
  tasks (event n d x) = tasks x.
Proof.
  intros H. unfold event. cbn [with_handlers tasks].
  apply fired_tasks. rewrite Forall_forall in *.
  intros e [_ He]%list_elem_of_filter. auto.
Qed.

Lemma events_tasks trace x :
  Forall (fun e => iscoroutinefunction e.1.2 = false) (event_handlers x) ->
  tasks (events trace x) = tasks x.
Proof.
  revert x. induction trace as [|[n d] trace IH]; intros x H; [done|].
  cbn [events foldl]. fold (events trace (event n d x)).
  rewrite IH, event_tasks; [done..|].
  rewrite Forall_forall in *. eauto using elem_of_event.
Qed.

(** *** The frame of the call *)

Lemma events_nil x : events [] x = x.
Proof. reflexivity. Qed.

Lemma frames_add_event_handler n h b x :
  frames (add_event_handler n h b x) = frames x.
Proof. reflexivity. Qed.

Lemma frames_del_event_handler n h x :
  frames (del_event_handler n h x) = frames x.
Proof. reflexivity. Qed.

(** With no event during the wait the future is still pending when the
    timer fires. *)
Lemma wait_no_event xc :
  (_wait_for_session_start xc []).2 = Raise TimeoutError.
Proof.
  unfold _wait_for_session_start, handlers. cbn [snd map foldl events].
  rewrite !frames_add_event_handler. cbn [with_frames frames].
  now rewrite list_lookup_middle.
Qed.

Lemma run_waiter_ok k d f : frame_ok f -> frame_ok (run_waiter k d f).
Proof.
  intros [-> | [-> | [m ->]]]; unfold run_waiter; cbn [session_state error];
    [destruct k|..]; unfold frame_ok; eauto.
Qed.

Lemma run_handler_frames_ok h d x : frames_ok x -> frames_ok (run_handler h d x).
Proof.
  unfold frames_ok. destruct h as [c k|]; cbn [run_handler]; [|done].
  destruct (frames x !! c) as [f|] eqn:E; [|done].
  intros H. cbn [with_frames frames].
  apply Forall_insert; [done|].
  apply run_waiter_ok. eapply Forall_lookup_1; eauto.
Qed.

Lemma event_frames_ok n d x : frames_ok x -> frames_ok (event n d x).
Proof.
  unfold event. intros H.
  change (frames_ok (foldl (fun x '(_, h, _) => run_handler h d x) x
            (filter (fun '(n', _, _) => n' = n) (event_handlers x)))).
  generalize (filter (fun '(n', _, _) => n' = n) (event_handlers x)).
  intros fired. revert x H.
  induction fired as [|[[n' h] b] fired IH]; intros x H; [done|].
  cbn [foldl]. apply IH. now apply run_handler_frames_ok.
Qed.

Lemma events_frames_ok trace x : frames_ok x -> frames_ok (events trace x).
Proof.
  revert x. induction trace as [|[n d] trace IH]; intros x H; [done|].
  cbn [events foldl]. apply IH. now apply event_frames_ok.
Qed.

(** The call returns, or raises [ConnectionFailed], or raises the
    [TimeoutError] of [asyncio.wait_for]: nothing else. *)
Lemma wait_outcome xc trace :
  frames_ok xc ->
  let r := (_wait_for_session_start xc trace).2 in
  r = Ok () ∨ (∃ message, r = Raise (ConnectionFailed message))
  ∨ r = Raise TimeoutError.
Proof.
  intros Hok. unfold _wait_for_session_start, handlers. cbn [snd map foldl].
  match goal with
  | |- context [events trace ?x1] =>
      assert (frames_ok (events trace x1)) as H
  end.
  { apply events_frames_ok. unfold frames_ok in *.
    rewrite !frames_add_event_handler. cbn [with_frames frames].
    apply Forall_app. split; [done|]. repeat constructor. }
  match goal with
  | |- context [frames ?x2 !! ?c] =>
      destruct (frames x2 !! c) as [f|] eqn:E; [|cbn; eauto]
  end.
  eapply Forall_lookup_1 in H; [|exact E].
  destruct H as [-> | [-> | [m ->]]]; cbn; eauto.
Qed.

(** An event under a name nobody listens to changes nothing of the frames. *)
Lemma event_unheard n d x :
  (∀ e, e ∈ event_handlers x -> e.1.1 ≠ n) -> frames (event n d x) = frames x.
Proof.
  intros H. unfold event. cbn [with_handlers frames].
  replace (filter (fun '(n', _, _) => n' = n) (event_handlers x))
    with (@nil (string * handler * bool)); [reflexivity|].
  symmetry. apply elem_of_nil_inv. intros [[n' h] b].
  rewrite list_elem_of_filter. intros [-> He]. now apply H in He.
Qed.

Lemma events_unheard trace x :
  Forall (fun ev => ∀ e, e ∈ event_handlers x -> e.1.1 ≠ ev.1) trace ->
  frames (events trace x) = frames x.
Proof.
  intros H. revert x H.
  induction trace as [|[n d] trace IH]; intros x H; [reflexivity|].
  apply Forall_cons in H as [Hn H]. cbn [events foldl].
  fold (events trace (event n d x)).
  rewrite IH.
  - now apply event_unheard.
  - eapply Forall_impl; [exact H|]. intros ev Hev e He.
    apply Hev. eauto using elem_of_event.
Qed.

Lemma wait_tasks xc trace :
  Forall (fun e => iscoroutinefunction e.1.2 = false) (event_handlers xc) ->
  tasks (_wait_for_session_start xc trace).1 = tasks xc.
Proof.
  intros H. unfold _wait_for_session_start, handlers. cbn [fst map foldl].
  unfold del_event_handler at 1 2 3 4. cbn [with_handlers tasks].
  rewrite events_tasks; [reflexivity|].
  unfold add_event_handler. cbn [with_handlers with_frames event_handlers].
  rewrite !Forall_app. repeat split; try done; now repeat constructor.
Qed.

End EventBus.

(** With no listener registered before the call and none of the four
    signals in the trace, the wait ends by the timer. *)
Lemma wait_no_signal xc trace :
  event_handlers xc = [] -> no_start_signal trace ->
  (_wait_for_session_start xc trace).2 = Raise TimeoutError.
Proof.
  intros Hx H. unfold _wait_for_session_start, handlers.
  cbn [snd map foldl].
  rewrite events_unheard.
  - rewrite !frames_add_event_handler. cbn [with_frames frames].
    now rewrite list_lookup_middle.
  - eapply Forall_impl; [exact H|]. intros ev Hev e.
    unfold add_event_handler.
    cbn [with_handlers with_frames event_handlers]. rewrite Hx. cbn [app].
    rewrite !elem_of_cons, elem_of_nil.
    intros [-> | [-> | [-> | [-> | []]]]]; cbn; intros E; symmetry in E.
    + now apply (Hev SessionStart).
    + now apply (Hev SessionEnd).
    + now apply (Hev ConnectionFailedSig).
    + now apply (Hev FailedAuth).
Qed.

Lemma connect_no_signal jid pw addr prio trace :
  no_start_signal trace -> connect jid pw addr prio trace = Raise TimeoutError.
Proof.
  intros H. unfold connect.
  pose proof (wait_no_signal
                (call (CallConnect addr)
                   (call (CallRegisterPlugin "xep_0199") new_xmpp))
                trace eq_refl H) as Hw.
  destruct (_wait_for_session_start _ trace) as [x r].
  cbn [snd] in Hw. now subst r.
Qed.

Lemma ServerAsync_connect_no_signal jid pw addr trace :
  no_start_signal trace ->
  ServerAsync_connect jid pw addr trace = Raise TimeoutError.
Proof.
  intros H. unfold ServerAsync_connect.
  pose proof (wait_no_signal
                (call (CallConnect addr)
                   (call (CallRegisterPlugin "xep_0199")
                      (call (CallRegisterPlugin "xep_0050")
                         (call (CallRegisterPlugin "xep_0004") new_xmpp))))
                trace eq_refl H) as Hw.
  destruct (_wait_for_session_start _ trace) as [x r].
  cbn [snd] in Hw. now subst r.
Qed.

Lemma connect_state jid pw addr prio trace c :
  connect jid pw addr prio trace = Ok c ->
  event_handlers (xmpp_client c) = [("disconnected", Reconnect, false)]
  ∧ tasks (xmpp_client c) = [].
Proof.
  unfold connect.
  destruct (_wait_for_session_start _ trace) as [x r] eqn:E.
  destruct r as [[]|e]; [|discriminate]. cbn. intros [= <-]. cbn.
  assert (x = (_wait_for_session_start
                 (call (CallConnect addr)
                    (call (CallRegisterPlugin "xep_0199") new_xmpp)) trace).1)
    as -> by now rewrite E.
  split.
  - rewrite (elem_of_nil_inv (event_handlers _)); [reflexivity|].
    intros e [He _]%elem_of_wait. cbn in He. now apply elem_of_nil in He.
  - rewrite wait_tasks; [reflexivity|]. cbn. constructor.
Qed.

Lemma disconnected_spawns d c :
  event_handlers (xmpp_client c) = [("disconnected", Reconnect, false)] ->
  event_handlers (xmpp_client (on_event "disconnected" d c))
  = [("disconnected", Reconnect, false)]
  ∧ reconnect_loops (on_event "disconnected" d c) = S (reconnect_loops c).
Proof.
  intros H. unfold on_event, reconnect_loops, event. cbn [xmpp_client].
  rewrite H.
  change (filter (fun '(n, _, _) => n = "disconnected")
            [("disconnected", Reconnect, false)])
    with [("disconnected", Reconnect, false)].
  cbn [foldl run_handler]. unfold spawn.
  cbn [with_handlers event_handlers tasks]. rewrite H, length_app.
  split; [reflexivity|cbn [length]; lia].
Qed.

(** C1.  When none of the four signals fires before the ten seconds are
    over, [connect], of the client as of the server, raises the
    [TimeoutError] of [asyncio.wait_for], which is not a domain error: the
    claim asks for [ConnectionFailed]. *)
Theorem connect_timeout jid pw addr prio trace :
  no_start_signal trace ->
  connect jid pw addr prio trace = Raise TimeoutError
  ∧ ServerAsync_connect jid pw addr trace = Raise TimeoutError
  ∧ is_domain_error TimeoutError = false.
Proof.
  intros H. split; [now apply connect_no_signal|].
  split; [now apply ServerAsync_connect_no_signal|reflexivity].
Qed.

Lemma connect_timeout_witness :
  connect "user@host/r" "secret" None (-1) [("roster_update", "")]
  = Raise TimeoutError.
Proof.
  apply (connect_timeout "user@host/r" "secret" None (-1) [("roster_update", "")]).
  repeat constructor. intros []; discriminate.
Defined.

(** C4.  On the timeout path [_wait_for_session_start] raises
    [TimeoutError]: neither an established session nor [ConnectionFailed],
    as the claim asks.  The other half of the claim holds: whatever fires
    during the wait, none of the four listeners of the call is registered
    when the call is left. *)
Theorem wait_timeout_and_listeners xc :
  (_wait_for_session_start xc []).2 = Raise TimeoutError
  ∧ ∀ trace k b,
      (signal_name k, Waiter (length (frames xc)) k, b)
      ∉ event_handlers (_wait_for_session_start xc trace).1.
Proof.
  split; [apply wait_no_event|].
  intros trace k b [_ H]%elem_of_wait. now apply (H k).
Qed.

(** C2 (amended).  Each [disconnected] signal delivered to a connected
    client starts a reconnect loop of its own: the client has no gate, and
    as many loops are in flight as signals arrived. *)
Theorem each_signal_starts_a_loop jid pw addr prio trace c (datas : list string) :
  connect jid pw addr prio trace = Ok c ->
  reconnect_loops (foldl (fun c d => on_event "disconnected" d c) c datas)
  = length datas.
Proof.
  intros [Hh Ht]%connect_state.
  assert (reconnect_loops c = 0) as H0 by (unfold reconnect_loops; now rewrite Ht).
  replace (length datas) with (reconnect_loops c + length datas) by lia.
  clear H0 Ht. revert c Hh.
  induction datas as [|d datas IH]; intros c Hh; cbn [foldl length]; [lia|].
  destruct (disconnected_spawns d c Hh) as [Hh' Hn].
  rewrite IH by assumption. lia.
Qed.

Lemma each_signal_starts_a_loop_witness :
  ∃ c, connect "user@host/r" "secret" None (-1) [("session_start", "")] = Ok c
       ∧ reconnect_loops
           (foldl (fun c d => on_event "disconnected" d c) c ["a"; "b"; "c"])
         = 3.
Proof.
  eexists. split; [reflexivity|].
  apply (each_signal_starts_a_loop "user@host/r" "secret" None (-1)
           [("session_start", "")] _ ["a"; "b"; "c"]).
  reflexivity.
Defined.

(** C2, as stated, fails: a second [disconnected] signal that arrives
    while the first loop still sleeps starts a second loop. *)
Lemma second_signal_second_loop :
  ¬ (∀ c, connect "user@host/r" "secret" None (-1) [("session_start", "")] = Ok c ->
          (reconnect_loops (on_event "disconnected" ""
                              (on_event "disconnected" "" c)) <= 1)%nat).
Proof.
  intros H.
  destruct (connect "user@host/r" "secret" None (-1) [("session_start", "")])
    as [c|] eqn:E; [|discriminate E].
  specialize (H c eq_refl). vm_compute in E. injection E as <-.
  vm_compute in H. lia.
Qed.

(** C9 (amended).  [disconnect] only asks the transport to close the
    connection: the one thing it adds to what the transport was asked is
    the call to its [disconnect()]; the listeners, the reconnect listener
    among them, the tasks and the queue are as before, so no loop is
    started by the call itself, and a [disconnected] signal that follows
    starts a reconnect loop as it does at any other time. *)
Theorem disconnect_keeps_reconnect jid pw addr prio trace c d :
  connect jid pw addr prio trace = Ok c ->
  calls (xmpp_client (disconnect c))
  = (calls (xmpp_client c) ++ [CallDisconnect])%list
  ∧ event_handlers (xmpp_client (disconnect c)) = event_handlers (xmpp_client c)
  ∧ ("disconnected", Reconnect, false) ∈ event_handlers (xmpp_client (disconnect c))
  ∧ tasks (xmpp_client (disconnect c)) = tasks (xmpp_client c)
  ∧ incoming_data (disconnect c) = incoming_data c
  ∧ reconnect_loops (disconnect c) = 0
  ∧ reconnect_loops (on_event "disconnected" d (disconnect c)) = 1.
Proof.
  intros [Hh Ht]%connect_state.
  split; [reflexivity|]. split; [reflexivity|].
  split; [cbn; rewrite Hh; apply elem_of_cons; now left|].
  split; [reflexivity|]. split; [reflexivity|].
  split; [unfold reconnect_loops; cbn; now rewrite Ht|].
  destruct (disconnected_spawns d (disconnect c)) as [_ ->]; [exact Hh|].
  unfold reconnect_loops. cbn. now rewrite Ht.
Qed.

Lemma disconnect_keeps_reconnect_witness :
  ∃ c, connect "user@host/r" "secret" None (-1) [("session_start", "")] = Ok c
       ∧ calls (xmpp_client (disconnect c))
         = (calls (xmpp_client c) ++ [CallDisconnect])%list
       ∧ reconnect_loops (on_event "disconnected" "" (disconnect c)) = 1.
Proof.
  eexists. split; [reflexivity|].
  destruct (disconnect_keeps_reconnect "user@host/r" "secret" None (-1)
              [("session_start", "")] _ "" eq_refl)
    as (Hc & _ & _ & _ & _ & _ & Hl).
  split; [exact Hc|exact Hl].
Defined.

(** C9, as stated, fails: after [disconnect], the [disconnected] signal by
    which the transport reports the end of the connection starts a
    reconnect loop. *)
Lemma reconnect_after_disconnect :
  ¬ (∀ c d, connect "user@host/r" "secret" None (-1) [("session_start", "")] = Ok c ->
            reconnect_loops (on_event "disconnected" d (disconnect c)) = 0).
Proof.
  intros H.
  destruct (connect "user@host/r" "secret" None (-1) [("session_start", "")])
    as [c|] eqn:E; [|discriminate E].
  specialize (H c "" eq_refl). vm_compute in E. injection E as <-.
  vm_compute in H. discriminate H.
Qed.

End SessionFacts.

(** *** client.py and server.py: the converters, the commands *)

Module CommandFacts.
Import Slixmpp XmppUtils Client Server Notions.

Lemma IqErrorConverter_passes {A} e :
  client_converts e = false -> with_IqErrorConverter (A:=A) (Raise e) = Raise e.
Proof.
  destruct e; try reflexivity. cbn [client_converts].
  rewrite !orb_false_iff. intros [[[H1 H2] H3] H4].
  apply bool_decide_eq_false in H1, H2, H3.
  unfold with_IqErrorConverter, IqErrorConverter_exit, convert.
  rewrite !decide_False by assumption.
  destruct (decide (condition = "undefined-condition")) as [->|]; [|reflexivity].
  rewrite bool_decide_eq_true_2 in H4 by reflexivity.
  now destruct (upstream_error iq).
Qed.

Lemma ErrorToXmppConverter_passes {A} e :
  server_converts e = false -> with_ErrorToXmppConverter (A:=A) (Raise e) = Raise e.
Proof. now destruct e. Qed.

(** C6.  The converters map the six pairs of the table, the
    [undefined-condition] pair for an [upstream-error] element that carries
    its [issuer] and [code] attributes, as the wire format has it.  Every
    error the table does not list, [undefined-condition] without an
    [upstream-error] element among them, leaves the converter as it
    came. *)
Theorem error_converters {A} text iq message :
  with_IqErrorConverter (A:=A) (Raise (IqError "not-authorized" text iq))
    = Raise (NotAuthorized text)
  ∧ with_IqErrorConverter (A:=A) (Raise (IqError "service-unavailable" text iq))
    = Raise (ServiceUnavailable text)
  ∧ with_IqErrorConverter (A:=A) (Raise (IqError "bad-request" text iq))
    = Raise (BadRequest text)
  ∧ (∀ attrib issuer code,
       upstream_error iq = Some attrib ->
       attrib !! "issuer" = Some issuer -> attrib !! "code" = Some code ->
       with_IqErrorConverter (A:=A) (Raise (IqError "undefined-condition" text iq))
       = Raise (UpstreamError issuer code text))
  ∧ (∀ e, client_converts e = false ->
       with_IqErrorConverter (A:=A) (Raise e) = Raise e)
  ∧ with_ErrorToXmppConverter (A:=A) (Raise (PermissionError message))
    = Raise (XMPPError "not-authorized" None message)
  ∧ with_ErrorToXmppConverter (A:=A) (Raise (ValueError message))
    = Raise (XMPPError "bad-request" (Some "modify") message)
  ∧ (∀ e, server_converts e = false ->
       with_ErrorToXmppConverter (A:=A) (Raise e) = Raise e).
Proof.
  repeat split; try reflexivity.
  - intros attrib issuer code Hu Hi Hc.
    unfold with_IqErrorConverter, IqErrorConverter_exit, convert.
    cbn. rewrite Hu. unfold getitem. cbn. rewrite Hi. cbn. now rewrite Hc.
  - apply IqErrorConverter_passes.
  - apply ErrorToXmppConverter_passes.
Qed.

Lemma error_converters_witness :
  with_IqErrorConverter (A:=())
    (Raise (IqError "undefined-condition" "quota"
              (IqXml (Some {["issuer" := "enedis"; "code" := "429"]}))))
  = Raise (UpstreamError "enedis" "429" "quota")
  ∧ with_IqErrorConverter (A:=()) (Raise TimeoutError) = Raise TimeoutError
  ∧ with_ErrorToXmppConverter (A:=()) (Raise (KeyError "identifier"))
    = Raise (KeyError "identifier").
Proof.
  destruct (error_converters (A:=()) "quota"
              (IqXml (Some {["issuer" := "enedis"; "code" := "429"]})) "")
    as (_ & _ & _ & Hup & Hc & _ & _ & Hs).
  split; [|split].
  - apply (Hup {["issuer" := "enedis"; "code" := "429"]}); vm_compute; reflexivity.
  - apply Hc. reflexivity.
  - apply Hs. reflexivity.
Defined.

(** C5.  A request without subelements leaves the session with the filled
    form as payload and [handle_submit] as next step; a request with
    subelements goes to [handle_submit] with the payload of the session;
    [handle_submit] leaves the session with payload
    [[result_form, result_data]] and [None] as next step. *)
Theorem two_phase self iq session :
  (has_subelements iq = false ->
   ∀ form, fill_form self (make_form "form" (name self)) = Ok form ->
     ∃ session',
       handle_request self iq session = Ok session'
       ∧ session' !! "payload" = Some (VForm form)
       ∧ session' !! "next" = Some VHandleSubmit)
  ∧ (has_subelements iq = true ->
     ∀ payload, session !! "payload" = Some payload ->
       handle_request self iq session = handle_submit self payload session)
  ∧ (∀ payload client result_form result_data,
       session !! "from" = Some client ->
       execute self client payload (make_form "result" "Get history")
         = Ok (result_form, result_data) ->
       ∃ session',
         handle_submit self payload session = Ok session'
         ∧ session' !! "payload" = Some (VList [VForm result_form; result_data])
         ∧ session' !! "next" = Some VNone).
Proof.
  split; [|split].
  - intros Hiq form Hf. unfold handle_request. rewrite Hiq, Hf. cbn.
    eexists. split; [reflexivity|]. split.
    + rewrite lookup_insert_ne by done. apply lookup_insert_eq.
    + apply lookup_insert_eq.
  - intros Hiq payload Hp. unfold handle_request, session_getitem.
    rewrite Hiq, Hp. reflexivity.
  - intros payload client rf rd Hc He. unfold handle_submit, session_getitem.
    rewrite Hc. cbn. rewrite He. cbn.
    eexists. split; [reflexivity|]. split.
    + apply lookup_insert_eq.
    + rewrite lookup_insert_ne by done. apply lookup_insert_eq.
Qed.

Lemma two_phase_witness :
  ∃ form session',
    handle_request
      (GetHistoryHandler (Ok "urn:dev:1")
         (fun _ _ _ _ => Ok (VData (from_xml None)))
         (fun _ => Raise (ValueError "Invalid isoformat string"))
         (DateTime (Utils.Date 2024 1 4) 0 0 0 0 (Some 60%Z))
         (DateTime (Utils.Date 2024 1 5) 0 0 0 0 (Some 60%Z)))
      (CommandIq []) {["from" := VStr "client@host/r"]}
    = Ok session'
    ∧ session' !! "payload" = Some (VForm form)
    ∧ session' !! "next" = Some VHandleSubmit.
Proof.
  eexists.
  apply (proj1 (two_phase
                  (GetHistoryHandler (Ok "urn:dev:1")
                     (fun _ _ _ _ => Ok (VData (from_xml None)))
                     (fun _ => Raise (ValueError "Invalid isoformat string"))
                     (DateTime (Utils.Date 2024 1 4) 0 0 0 0 (Some 60%Z))
                     (DateTime (Utils.Date 2024 1 5) 0 0 0 0 (Some 60%Z)))
                  (CommandIq []) {["from" := VStr "client@host/r"]}));
    reflexivity.
Defined.

(** C3.  Calling [Subscribe] or [Unsubscribe], or a subclass that only adds
    methods, raises [TypeError]: the two classes have no base class, so
    [super().__init__(node=..., name=...)] reaches [object.__init__]; and
    they have no [handle_request] nor [handle_submit].  [GetHistoryHandler],
    which derives from [CommandHandler], has both and can be constructed
    through a subclass. *)
Theorem subscribe_cannot_be_constructed :
  Class.construct Class.Subscribe
    = Raise (TypeError
        "object.__init__() takes exactly one argument (the instance to initialize)")
  ∧ Class.construct Class.Unsubscribe
    = Raise (TypeError
        "object.__init__() takes exactly one argument (the instance to initialize)")
  ∧ (∀ name methods,
       Class.construct (Class.Subclass name Class.Subscribe methods)
       = Raise (TypeError
           "object.__init__() takes exactly one argument (the instance to initialize)")
       ∧ Class.construct (Class.Subclass name Class.Unsubscribe methods)
       = Raise (TypeError
           "object.__init__() takes exactly one argument (the instance to initialize)"))
  ∧ Class.getattr Class.Subscribe "handle_request" = None
  ∧ Class.getattr Class.Subscribe "handle_submit" = None
  ∧ Class.getattr Class.Unsubscribe "handle_request" = None
  ∧ Class.getattr Class.Unsubscribe "handle_submit" = None
  ∧ Class.getattr Class.GetHistoryHandler "handle_request"
    = Some (Class.CommandHandler, false)
  ∧ (∃ self,
       Class.construct
         (Class.Subclass "History" Class.GetHistoryHandler
            ["default_identifier"; "get_history"]) = Ok self
       ∧ Class.attrs self !! "node" = Some "get_history").
Proof.
  repeat split; try (vm_compute; reflexivity).
  eexists. split; vm_compute; reflexivity.
Qed.

End CommandFacts.

(* ===================================================================== *)
(** ** Further properties                                                 *)
(* ===================================================================== *)

(** *** utils.py *)

Module UtilsMore.
Import Utils UtilsFacts Serialize MoreNotions.
Local Open Scope N_scope.

Lemma valid_date_bounds y m dd :
  valid_date (Date y m dd) = true ->
  1 <= y <= 9999 /\ 1 <= m <= 12 /\ 1 <= dd <= 31.
Proof.
  unfold valid_date. cbn [year month day]. intros H.
  repeat (apply andb_prop in H as [H ?]).
  repeat match goal with
         | H : (_ <=? _) = true |- _ => apply N.leb_le in H
         end.
  assert (dd <= 31) by (unfold days_in_month in *; repeat case_match; lia).
  lia.
Qed.

Lemma re_d_pad2_rest d rest :
  1 <= d <= 31 -> exists tl, re_d (pad2 d ++ rest) = (d, rest) :: tl.
Proof.
  intros Hd. upto31 d; try lia; vm_compute; eexists; reflexivity.
Qed.

Lemma append_empty_r (s : string) : s ++ "" = s.
Proof. induction s as [|c s IH]; [reflexivity|]. now rewrite append_cons, IH. Qed.

(** The text of a date, then the match of the whole expression. *)
Lemma re_match_isoformat y m dd rest :
  y <= 9999 -> 1 <= m <= 12 -> 1 <= dd <= 31 ->
  exists tl,
    re_match (pad4 y ++ "-" ++ pad2 m ++ "-" ++ pad2 dd ++ rest)
    = (y, m, dd, rest) :: tl.
Proof.
  intros Hy Hm Hd. unfold re_match.
  rewrite re_Y_pad4 by lia.
  cbn [flat_map]. rewrite append_cons, append_nil, lit_hd.
  cbn [flat_map]. rewrite !app_nil_r.
  rewrite (re_m_pad2 (fun m' s4 => map (fun '(d, s5) => (y, m', d, s5)) (re_d s4)))
    by lia.
  destruct (re_d_pad2_rest dd rest) as [tl ->]; [lia|].
  cbn [map]. eauto.
Qed.

Lemma format_iso_date_isoformat pads d :
  1000 <= year d <= 9999 -> format_iso_date pads d = date_isoformat d.
Proof.
  intros H. unfold format_iso_date, date_isoformat.
  now rewrite strftime_Y_pad4.
Qed.

(** X2.  A date written by [format_iso_date] and followed by any text is
    refused by [parse_iso_date], with the error of [strptime] for data left
    over. *)
Theorem parse_iso_date_trailing pads d rest :
  valid_date d = true -> 1000 <= year d -> rest <> "" ->
  parse_iso_date (format_iso_date pads d ++ rest)
  = Raise (ValueError "unconverted data remains").
Proof.
  destruct d as [y m dd]. intros Hv Hy Hr. cbn [year] in Hy.
  destruct (valid_date_bounds _ _ _ Hv) as (Hy' & Hm & Hd).
  rewrite format_iso_date_isoformat by (cbn [year]; lia).
  unfold date_isoformat. cbn [year month day].
  rewrite !append_assoc.
  unfold parse_iso_date.
  destruct (re_match_isoformat y m dd rest) as [tl ->]; [lia..|].
  destruct rest; [congruence|]. reflexivity.
Qed.

Lemma parse_iso_date_trailing_witness :
  parse_iso_date (format_iso_date false (Date 2024 2 29) ++ "T00:00:00")
  = Raise (ValueError "unconverted data remains").
Proof.
  apply (parse_iso_date_trailing false (Date 2024 2 29) "T00:00:00").
  - reflexivity.
  - cbn. lia.
  - discriminate.
Defined.

(** X3.  [serialize] writes a date as a text that [parse_iso_date] reads
    back to the same date, for every date, also of a year below 1000; from
    the year 1000 on it is the text [format_iso_date] writes. *)
Theorem serialize_date_parses d :
  valid_date d = true ->
  exists s,
    serialize (PyDate d) = SStr s
    /\ parse_iso_date s = Ok d
    /\ (1000 <= year d -> forall pads, format_iso_date pads d = s).
Proof.
  destruct d as [y m dd]. intros Hv.
  destruct (valid_date_bounds _ _ _ Hv) as (Hy & Hm & Hd).
  eexists. split; [reflexivity|]. split.
  - unfold date_isoformat, parse_iso_date. cbn [year month day].
    rewrite <- (append_empty_r (pad2 dd)).
    destruct (re_match_isoformat y m dd "") as [tl ->]; [lia..|].
    cbn [String.eqb]. unfold make_date. now rewrite Hv.
  - cbn [year]. intros H pads. apply format_iso_date_isoformat. cbn [year]. lia.
Qed.

Lemma serialize_date_parses_witness :
  exists s, serialize (PyDate (Date 987 6 5)) = SStr s
            /\ parse_iso_date s = Ok (Date 987 6 5).
Proof.
  destruct (serialize_date_parses (Date 987 6 5) eq_refl) as (s & H1 & H2 & _).
  eauto.
Defined.


Lemma re_m_texts {A} (K : N -> string -> list A) m M rest :
  1 <= m <= 12 -> M ∈ month_texts m ->
  flat_map (fun '(m', s3) => flat_map (K m') (lit "-" s3))
           (re_m (M ++ "-" ++ rest)) = K m rest.
Proof.
  intros Hm HM. unfold month_texts in HM.
  rewrite !elem_of_cons, elem_of_nil in HM.
  destruct HM as [-> | [-> | []]];
    upto31 m; try lia; cbv -[app flat_map lit]; simpl; rewrite ?app_nil_r;
    reflexivity.
Qed.

Lemma re_d_texts d D :
  1 <= d <= 31 -> D ∈ day_texts d -> exists tl, re_d D = (d, "") :: tl.
Proof.
  intros Hd HD. unfold day_texts in HD.
  rewrite elem_of_app, !elem_of_cons, !elem_of_nil in HD.
  destruct HD as [[-> | [-> | []]] | HD].
  - upto31 d; try lia; vm_compute; eexists; reflexivity.
  - upto31 d; try lia; vm_compute; eexists; reflexivity.
  - destruct (d <? 10) eqn:E; [|now apply elem_of_nil in HD].
    apply list_elem_of_singleton in HD as ->. apply N.ltb_lt in E.
    upto15 d; try lia; vm_compute; eexists; reflexivity.
Qed.

(** X4.  [parse_iso_date] reads the year of four digits followed by the
    month and the day in any of the writings of [strptime]: two digits,
    the number without padding, or for a day a space and a digit. *)
Theorem parse_iso_date_accepts d M D :
  valid_date d = true -> M ∈ month_texts (month d) -> D ∈ day_texts (day d) ->
  parse_iso_date (pad4 (year d) ++ "-" ++ M ++ "-" ++ D) = Ok d.
Proof.
  destruct d as [y m dd]. cbn [year month day]. intros Hv HM HD.
  destruct (valid_date_bounds _ _ _ Hv) as (Hy & Hm & Hd).
  unfold parse_iso_date, re_match.
  rewrite re_Y_pad4 by lia.
  cbn [flat_map]. rewrite append_cons, append_nil, lit_hd.
  cbn [flat_map]. rewrite !app_nil_r.
  rewrite (re_m_texts (fun m' s4 => map (fun '(d, s5) => (y, m', d, s5)) (re_d s4)) m)
    by (lia || assumption).
  destruct (re_d_texts dd D) as [tl ->]; [lia|assumption|].
  cbn [map String.eqb]. unfold make_date. now rewrite Hv.
Qed.

Lemma parse_iso_date_accepts_witness :
  parse_iso_date "2024-2- 9" = Ok (Date 2024 2 9).
Proof.
  apply (parse_iso_date_accepts (Date 2024 2 9) "2" " 9").
  - reflexivity.
  - unfold month_texts. rewrite !elem_of_cons. right. left. reflexivity.
  - unfold day_texts. rewrite elem_of_app. right.
    apply list_elem_of_singleton. reflexivity.
Defined.

(** X1.  [parse_iso_date] gives no date for a day that is not of the
    calendar.  For a year of four digits, a month from 1 to 12 and a day
    from 1 to 31, in any of the writings [strptime] reads, the text is
    turned into that date exactly when the date exists, and is refused
    with [ValueError] when it does not: the 29th of February of a common
    year, the 31st of a month of thirty days, the year 0000.  And whatever
    the text, a date that is returned is a day of the years 1 to 9999. *)
Theorem parse_iso_date_refuses y m dd M D :
  y <= 9999 -> 1 <= m <= 12 -> 1 <= dd <= 31 ->
  M ∈ month_texts m -> D ∈ day_texts dd ->
  (∀ d, parse_iso_date (pad4 y ++ "-" ++ M ++ "-" ++ D) = Ok d
        <-> d = Date y m dd ∧ valid_date (Date y m dd) = true)
  ∧ (valid_date (Date y m dd) = false ->
     ∃ message,
       parse_iso_date (pad4 y ++ "-" ++ M ++ "-" ++ D)
       = Raise (ValueError message))
  ∧ (∀ s d, parse_iso_date s = Ok d -> valid_date d = true).
Proof.
  intros Hy Hm Hd HM HD.
  assert (E : parse_iso_date (pad4 y ++ "-" ++ M ++ "-" ++ D) = make_date y m dd).
  { unfold parse_iso_date, re_match.
    rewrite re_Y_pad4 by lia.
    cbn [flat_map]. rewrite append_cons, append_nil, lit_hd.
    cbn [flat_map]. rewrite !app_nil_r.
    rewrite (re_m_texts
               (fun m' s4 => map (fun '(d, s5) => (y, m', d, s5)) (re_d s4)) m)
      by (lia || assumption).
    destruct (re_d_texts dd D) as [tl ->]; [lia|assumption|].
    reflexivity. }
  rewrite E. unfold make_date. split; [|split].
  - intros d. destruct (valid_date (Date y m dd)).
    + split; [now intros [= <-]|now intros [-> _]].
    + split; [discriminate|now intros [_ ?]].
  - intros ->. eauto.
  - intros s d. unfold parse_iso_date.
    destruct (re_match s) as [|[[[y' m'] d'] rest] tl]; [discriminate|].
    destruct (String.eqb rest ""); [|discriminate].
    unfold make_date. destruct (valid_date _) eqn:Ev; [|discriminate].
    now intros [= <-].
Qed.

Lemma parse_iso_date_refuses_witness :
  (∃ message, parse_iso_date "2023-02-29" = Raise (ValueError message))
  ∧ (∃ message, parse_iso_date "0000-1- 1" = Raise (ValueError message)).
Proof.
  split.
  - refine (proj1 (proj2 (parse_iso_date_refuses 2023 2 29 "02" "29" _ _ _ _ _)) _);
      try (cbn; lia); try reflexivity.
    + unfold month_texts. rewrite !elem_of_cons. left. reflexivity.
    + unfold day_texts. rewrite elem_of_app, !elem_of_cons. left. left.
      reflexivity.
  - refine (proj1 (proj2 (parse_iso_date_refuses 0 1 1 "1" " 1" _ _ _ _ _)) _);
      try (cbn; lia); try reflexivity.
    + unfold month_texts. rewrite !elem_of_cons. right. left. reflexivity.
    + unfold day_texts. rewrite elem_of_app. right.
      apply list_elem_of_singleton. reflexivity.
Defined.

Lemma is_digit_char n : n < 10 -> is_digit (digit_char n) = true.
Proof. intros H. unfold is_digit. now rewrite digit_val_char. Qed.

(** X5.  From the year 1000 on, [format_iso_date] writes ten characters:
    four digits, a hyphen, two digits, a hyphen, two digits. *)
Theorem format_iso_date_shape pads d :
  valid_date d = true -> 1000 <= year d ->
  iso_shape (format_iso_date pads d) = true
  /\ String.length (format_iso_date pads d) = 10%nat.
Proof.
  destruct d as [y m dd]. intros Hv Hy. cbn [year] in Hy.
  destruct (valid_date_bounds _ _ _ Hv) as (Hy' & Hm & Hd).
  rewrite format_iso_date_isoformat by (cbn [year]; lia).
  unfold date_isoformat. cbn [year month day]. unfold pad4, pad2.
  rewrite !append_cons, !append_nil. cbn [iso_shape String.length].
  rewrite !is_digit_char by div_lia. split; reflexivity.
Qed.

Lemma format_iso_date_shape_witness :
  iso_shape (format_iso_date false (Date 2024 2 29)) = true.
Proof.
  apply (format_iso_date_shape false (Date 2024 2 29)).
  - reflexivity.
  - cbn. lia.
Defined.

End UtilsMore.

(** *** xmpp_utils.py, client.py, server.py: the session *)

Module SessionMore.
Import Slixmpp XmppUtils Client Server Notions MoreNotions SessionFacts.

Lemma signal_of_name_signal_name k : signal_of_name (signal_name k) = Some k.
Proof. now destruct k. Qed.

Lemma signal_of_name_Some n k : signal_of_name n = Some k -> n = signal_name k.
Proof.
  unfold signal_of_name.
  repeat (destruct (decide _) as [->|]; [now intros [= <-]|]). discriminate.
Qed.

Lemma signal_name_inj k k' : signal_name k = signal_name k' -> k = k'.
Proof. now destruct k, k'. Qed.

Section Call.

(** The number of the call whose frame is followed. *)
Variable c : nat.

Implicit Types (x : xmpp) (f : frame) (e : string * handler * bool).

Lemma run_handler_others h d x :
  (∀ k, h ≠ Waiter c k) -> frames (run_handler h d x) !! c = frames x !! c.
Proof.
  intros Hh. destruct h as [c' k|]; cbn [run_handler]; [|reflexivity].
  destruct (frames x !! c') eqn:E; [|reflexivity].
  cbn [with_frames frames]. apply list_lookup_insert_ne. intros ->. now apply (Hh k).
Qed.

Lemma run_handler_waiter k d x f :
  frames x !! c = Some f ->
  frames (run_handler (Waiter c k) d x) !! c = Some (run_waiter k d f).
Proof.
  intros E. cbn [run_handler]. rewrite E. cbn [with_frames frames].
  apply list_lookup_insert_eq. eauto using lookup_lt_Some.
Qed.

Lemma run_waiter_done k d f :
  session_state f ≠ None -> run_waiter k d f = f.
Proof. unfold run_waiter. now destruct (session_state f). Qed.

Lemma run_waiter_idem k d f :
  run_waiter k d (run_waiter k d f) = run_waiter k d f.
Proof.
  destruct (session_state f) eqn:E.
  - rewrite !(run_waiter_done k d f) by (now rewrite E). reflexivity.
  - apply run_waiter_done. unfold run_waiter. rewrite E. now destruct k.
Qed.

Lemma run_handler_done h d x f :
  frames x !! c = Some f -> session_state f ≠ None ->
  frames (run_handler h d x) !! c = Some f.
Proof.
  intros E Hf. destruct h as [c' k|]; [|exact E].
  destruct (decide (c' = c)) as [->|Hne].
  - rewrite (run_handler_waiter k d x f E). now rewrite run_waiter_done.
  - rewrite run_handler_others; [exact E|]. intros k' [= ?]. congruence.
Qed.

Local Abbreviation fire d := (fun x '(_, h, _) => run_handler h d x).

Lemma fired_done d (fired : list (string * handler * bool)) x f :
  frames x !! c = Some f -> session_state f ≠ None ->
  frames (foldl (fire d) x fired) !! c = Some f.
Proof.
  revert x. induction fired as [|[[n h] b] fired IH]; intros x E Hf; [exact E|].
  cbn [foldl]. apply IH; [|exact Hf]. now apply run_handler_done.
Qed.

Lemma event_done n d x f :
  frames x !! c = Some f -> session_state f ≠ None ->
  frames (event n d x) !! c = Some f.
Proof. intros E Hf. unfold event. cbn [with_handlers frames]. now apply fired_done. Qed.

Lemma events_done trace x f :
  frames x !! c = Some f -> session_state f ≠ None ->
  frames (events trace x) !! c = Some f.
Proof.
  revert x. induction trace as [|[n d] trace IH]; intros x E Hf; [exact E|].
  cbn [events foldl]. apply IH; [|exact Hf]. now apply event_done.
Qed.

Lemma fired_others d (fired : list (string * handler * bool)) x :
  Forall (fun e => ∀ k, e.1.2 ≠ Waiter c k) fired ->
  frames (foldl (fire d) x fired) !! c = frames x !! c.
Proof.
  intros H. revert x.
  induction H as [|[[n h] b] fired Hh _ IH]; intros x; [reflexivity|].
  cbn [foldl]. rewrite IH. now apply run_handler_others.
Qed.

Lemma fired_fixed k d (fired : list (string * handler * bool)) x f :
  frames x !! c = Some f -> run_waiter k d f = f ->
  Forall (fun e => e.1.2 = Waiter c k ∨ ∀ k', e.1.2 ≠ Waiter c k') fired ->
  frames (foldl (fire d) x fired) !! c = Some f.
Proof.
  intros E Hf H. revert x E.
  induction H as [|[[n h] b] fired Hh _ IH]; intros x E; [exact E|].
  cbn [foldl]. apply IH. cbn in Hh. destruct Hh as [-> | Hh].
  - rewrite (run_handler_waiter k d x f E). now rewrite Hf.
  - now rewrite run_handler_others.
Qed.

Lemma fired_waiter k d (fired : list (string * handler * bool)) x f :
  frames x !! c = Some f ->
  Forall (fun e => e.1.2 = Waiter c k ∨ ∀ k', e.1.2 ≠ Waiter c k') fired ->
  Exists (fun e => e.1.2 = Waiter c k) fired ->
  frames (foldl (fire d) x fired) !! c = Some (run_waiter k d f).
Proof.
  intros E H Hex. revert x E H.
  induction Hex as [[[n h] b] fired Hh | [[n h] b] fired _ IH]; intros x E H;
    apply Forall_cons in H as [Hh' H]; cbn [foldl].
  - cbn in Hh. subst h.
    eapply fired_fixed; [|apply run_waiter_idem|exact H].
    now apply run_handler_waiter.
  - cbn in Hh'. destruct Hh' as [-> | Hh'].
    + eapply fired_fixed; [|apply run_waiter_idem|exact H].
      now apply run_handler_waiter.
    + apply IH; [|exact H]. now rewrite run_handler_others.
Qed.

Lemma event_signal k d x :
  pending c x ->
  frames (event (signal_name k) d x) !! c
  = Some (run_waiter k d (Frame None None)).
Proof.
  intros (E & Hcan & Hreg). unfold event. cbn [with_handlers frames].
  apply fired_waiter; [exact E|..].
  - apply Forall_forall. intros [[n h] b] [Hn He]%list_elem_of_filter.
    cbn in Hn. subst n. cbn.
    destruct h as [c' k'|]; [|right; discriminate].
    destruct (decide (c' = c)) as [->|Hne]; [|right; intros k'' [= ?]; congruence].
    left. specialize (Hcan _ k' He eq_refl). injection Hcan as Hk.
    apply signal_name_inj in Hk. now subst.
  - apply Exists_exists. exists (signal_name k, Waiter c k, true).
    split; [|reflexivity]. apply list_elem_of_filter. split; [reflexivity|apply Hreg].
Qed.

Lemma event_no_signal n d x :
  pending c x -> signal_of_name n = None -> pending c (event n d x).
Proof.
  intros (E & Hcan & Hreg) Hn. split; [|split].
  - unfold event. cbn [with_handlers frames]. rewrite fired_others; [exact E|].
    apply Forall_forall. intros [[n' h] b] [Hn' He]%list_elem_of_filter k Hh.
    cbn in Hn', Hh. subst n' h. specialize (Hcan _ k He eq_refl). injection Hcan as ->.
    now rewrite signal_of_name_signal_name in Hn.
  - intros e k He. apply Hcan. eauto using elem_of_event.
  - intros k. rewrite event_handlers_event. apply list_elem_of_filter.
    split; [|apply Hreg]. intros [<- _].
    now rewrite signal_of_name_signal_name in Hn.
Qed.

Lemma events_first_signal trace x :
  pending c x -> frames (events trace x) !! c = Some (frame_of (first_signal trace)).
Proof.
  revert x. induction trace as [|[n d] trace IH]; intros x Hp.
  - apply Hp.
  - cbn [events foldl first_signal]. fold (events trace (event n d x)).
    destruct (signal_of_name n) as [k|] eqn:Hn.
    + apply signal_of_name_Some in Hn as ->.
      apply events_done; [now apply event_signal|]. now destruct k.
    + apply IH. now apply event_no_signal.
Qed.

End Call.

(** X6.  The first of the four signals that fires decides the wait: it
    returns for [session_start], raises [ConnectionFailed] with the message
    of the signal for the three others, and later signals change nothing;
    with no signal it raises [TimeoutError]. *)
Theorem first_signal_decides xc trace :
  listeners_known xc ->
  (_wait_for_session_start xc trace).2 = outcome (first_signal trace).
Proof.
  intros Hk. unfold _wait_for_session_start, handlers. cbn [snd map foldl].
  rewrite (events_first_signal (length (frames xc))).
  - destruct (first_signal trace) as [[[] d]|]; reflexivity.
  - unfold add_event_handler, pending.
    cbn [with_handlers with_frames event_handlers frames].
    split; [apply list_lookup_middle; reflexivity|]. split.
    + intros e k. rewrite !elem_of_app, !list_elem_of_singleton.
      intros [[[[He | ->] | ->] | ->] | ->] Hh.
      * apply (Hk _ _ _ He) in Hh. lia.
      * cbn in Hh. now injection Hh as <-.
      * cbn in Hh. now injection Hh as <-.
      * cbn in Hh. now injection Hh as <-.
      * cbn in Hh. now injection Hh as <-.
    + intros k. rewrite !elem_of_app, !list_elem_of_singleton.
      destruct k; tauto.
Qed.

(** *** What the wait leaves untouched *)

Lemma run_handler_calls h d x : calls (run_handler h d x) = calls x.
Proof.
  destruct h as [c k|]; cbn [run_handler]; [|reflexivity].
  now destruct (frames x !! c).
Qed.

Lemma run_handler_length h d x :
  length (frames (run_handler h d x)) = length (frames x).
Proof.
  destruct h as [c k|]; cbn [run_handler]; [|reflexivity].
  destruct (frames x !! c); [|reflexivity].
  cbn [with_frames frames]. apply length_insert.
Qed.

Lemma event_calls n d x : calls (event n d x) = calls x.
Proof.
  unfold event. cbn [with_handlers calls].
  generalize (filter (fun '(n', _, _) => n' = n) (event_handlers x)).
  intros fired. revert x.
  induction fired as [|[[n' h] b] fired IH]; intros x; [reflexivity|].
  cbn [foldl]. now rewrite IH, run_handler_calls.
Qed.

Lemma event_length n d x : length (frames (event n d x)) = length (frames x).
Proof.
  unfold event. cbn [with_handlers frames].
  generalize (filter (fun '(n', _, _) => n' = n) (event_handlers x)).
  intros fired. revert x.
  induction fired as [|[[n' h] b] fired IH]; intros x; [reflexivity|].
  cbn [foldl]. now rewrite IH, run_handler_length.
Qed.

Lemma events_calls trace x : calls (events trace x) = calls x.
Proof.
  revert x. induction trace as [|[n d] trace IH]; intros x; [reflexivity|].
  cbn [events foldl]. fold (events trace (event n d x)).
  now rewrite IH, event_calls.
Qed.

Lemma events_length trace x : length (frames (events trace x)) = length (frames x).
Proof.
  revert x. induction trace as [|[n d] trace IH]; intros x; [reflexivity|].
  cbn [events foldl]. fold (events trace (event n d x)).
  now rewrite IH, event_length.
Qed.

Lemma wait_calls xc trace :
  calls (_wait_for_session_start xc trace).1 = calls xc.
Proof.
  unfold _wait_for_session_start, handlers. cbn [fst map foldl].
  unfold del_event_handler. cbn [with_handlers calls].
  now rewrite events_calls.
Qed.

Lemma wait_length xc trace :
  length (frames (_wait_for_session_start xc trace).1) = S (length (frames xc)).
Proof.
  unfold _wait_for_session_start, handlers. cbn [fst map foldl].
  unfold del_event_handler. cbn [with_handlers frames].
  rewrite events_length. unfold add_event_handler.
  cbn [with_handlers with_frames frames]. rewrite length_app. cbn [length]. lia.
Qed.

Lemma wait_listeners_known xc trace :
  listeners_known xc -> listeners_known (_wait_for_session_start xc trace).1.
Proof.
  intros Hk e c k [He _]%elem_of_wait Hh. rewrite wait_length.
  specialize (Hk _ _ _ He Hh). lia.
Qed.

Lemma listeners_known_nil x : event_handlers x = [] -> listeners_known x.
Proof. intros H e c k He. rewrite H in He. now apply elem_of_nil in He. Qed.

Lemma listeners_known_call t x : listeners_known x -> listeners_known (call t x).
Proof. intros H. exact H. Qed.

(** The client object after a wait that started from no listener. *)
Lemma wait_from_scratch xc trace :
  event_handlers xc = [] ->
  let x := (_wait_for_session_start xc trace).1 in
  event_handlers x = [] ∧ tasks x = tasks xc ∧ calls x = calls xc.
Proof.
  intros H. split; [|split].
  - apply elem_of_nil_inv. intros e [He _]%elem_of_wait.
    rewrite H in He. now apply elem_of_nil in He.
  - apply wait_tasks. rewrite H. constructor.
  - apply wait_calls.
Qed.

Lemma first_signal_decides_witness :
  (_wait_for_session_start (xmpp_client (ClientAsync_init new_xmpp))
     [("roster_update", ""); ("connection_failed", "timed out");
      ("session_start", "")]).2
  = Raise (ConnectionFailed "XMPP server is not reachable, timed out").
Proof.
  apply (first_signal_decides (xmpp_client (ClientAsync_init new_xmpp))
           [("roster_update", ""); ("connection_failed", "timed out");
            ("session_start", "")]).
  intros e c k He Hh. cbn in He. apply list_elem_of_singleton in He as ->.
  discriminate Hh.
Defined.

(** X7.  [ClientAsync.connect] raises what the first signal decides; when
    the session starts it returns a client with the reconnect listener as
    its only listener, no task, an empty queue, and these calls made in
    order: the ping plugin, [connect] with the address, the handler of data
    messages, the presence with the priority. *)
Theorem connect_outcome jid pw addr prio trace :
  match outcome (first_signal trace) with
  | Raise e => connect jid pw addr prio trace = Raise e
  | Ok _ =>
      ∃ c, connect jid pw addr prio trace = Ok c
           ∧ event_handlers (xmpp_client c) = [("disconnected", Reconnect, false)]
           ∧ tasks (xmpp_client c) = []
           ∧ calls (xmpp_client c)
             = [CallRegisterPlugin "xep_0199"; CallConnect addr;
                CallRegisterHandler "Quoalise Data";
                CallSendPresence (Some prio)]
           ∧ incoming_data c = []
  end.
Proof.
  unfold connect.
  set (x0 := call (CallConnect addr) (call (CallRegisterPlugin "xep_0199") new_xmpp)).
  pose proof (first_signal_decides x0 trace (listeners_known_nil x0 eq_refl)) as Hr.
  destruct (wait_from_scratch x0 trace eq_refl) as (Hh & Ht & Hc).
  destruct (_wait_for_session_start x0 trace) as [x r].
  cbn [fst snd] in *. subst r.
  destruct (outcome (first_signal trace)) as [[]|e]; [|reflexivity].
  eexists. split; [reflexivity|]. cbn. rewrite Hh, Ht, Hc. repeat split.
Qed.

(** X8.  [ServerAsync.connect] raises what the first signal decides; when
    the session starts it returns a server with no listener left (it has
    no reconnect listener), after the three plugins, [connect] with the
    address and the presence. *)
Theorem ServerAsync_connect_outcome jid pw addr trace :
  match outcome (first_signal trace) with
  | Raise e => ServerAsync_connect jid pw addr trace = Raise e
  | Ok _ =>
      ∃ s, ServerAsync_connect jid pw addr trace = Ok s
           ∧ event_handlers (server_xmpp_client s) = []
           ∧ tasks (server_xmpp_client s) = []
           ∧ calls (server_xmpp_client s)
             = [CallRegisterPlugin "xep_0004"; CallRegisterPlugin "xep_0050";
                CallRegisterPlugin "xep_0199"; CallConnect addr;
                CallSendPresence None]
  end.
Proof.
  unfold ServerAsync_connect.
  set (x0 := call (CallConnect addr) _).
  pose proof (first_signal_decides x0 trace (listeners_known_nil x0 eq_refl)) as Hr.
  destruct (wait_from_scratch x0 trace eq_refl) as (Hh & Ht & Hc).
  destruct (_wait_for_session_start x0 trace) as [x r].
  cbn [fst snd] in *. subst r.
  destruct (outcome (first_signal trace)) as [[]|e]; [|reflexivity].
  eexists. split; [reflexivity|]. cbn. rewrite Hh, Ht, Hc. repeat split.
Qed.

(** *** [__reconnect] *)

(** X10.  However many attempts fail, [__reconnect] leaves no listener of
    its own: whatever is registered after it was registered before. *)
Theorem reconnect_no_leak attempts x e :
  e ∈ event_handlers (__reconnect attempts x).1 -> e ∈ event_handlers x.
Proof.
  revert x. induction attempts as [|trace attempts IH]; intros x; [done|].
  cbn [__reconnect].
  pose proof (elem_of_wait (call (CallConnect None) x) trace e) as Hw.
  destruct (_wait_for_session_start _ trace) as [x' r]. cbn [fst] in Hw.
  destruct r as [[]|err]; cbn [fst].
  - intros He. now apply Hw in He.
  - intros He%IH. now apply Hw in He.
Qed.

Lemma reconnect_no_leak_witness :
  ("disconnected", Reconnect, false)
  ∈ event_handlers (xmpp_client (ClientAsync_init new_xmpp)).
Proof.
  apply (reconnect_no_leak [[("failed_auth", "")]; []; [("session_start", "")]]
           (xmpp_client (ClientAsync_init new_xmpp))).
  assert (event_handlers
            (__reconnect [[("failed_auth", "")]; []; [("session_start", "")]]
               (xmpp_client (ClientAsync_init new_xmpp))).1
          = [("disconnected", Reconnect, false)]) as -> by (vm_compute; reflexivity).
  apply list_elem_of_singleton. reflexivity.
Defined.

(** X9.  [__reconnect] goes on after every failure, a timeout as well, and
    returns at the first attempt whose session starts; it calls [connect()]
    once per attempt, each time without an address. *)
Theorem reconnect_retries attempts x :
  listeners_known x ->
  (__reconnect attempts x).2 = existsb succeeds attempts
  ∧ calls (__reconnect attempts x).1
    = (calls x ++ replicate (attempts_made attempts) (CallConnect None))%list.
Proof.
  revert x. induction attempts as [|trace attempts IH]; intros x Hk.
  - cbn. now rewrite app_nil_r.
  - cbn [__reconnect existsb attempts_made].
    pose proof (first_signal_decides (call (CallConnect None) x) trace Hk) as Hr.
    pose proof (wait_calls (call (CallConnect None) x) trace) as Hc.
    pose proof (wait_listeners_known (call (CallConnect None) x) trace Hk) as Hk'.
    destruct (_wait_for_session_start _ trace) as [x' r].
    cbn [fst snd] in *. subst r. unfold succeeds.
    destruct (first_signal trace) as [[[] d]|]; cbn [outcome fst snd orb];
      try (destruct (IH x' Hk') as [-> ->]; rewrite Hc; cbn [calls call];
           split; [reflexivity|]; now rewrite <- app_assoc).
    rewrite Hc. cbn. split; reflexivity.
Qed.

Lemma reconnect_retries_witness :
  (__reconnect [[("failed_auth", "")]; []; [("session_start", "")]; []]
     (xmpp_client (ClientAsync_init new_xmpp))).2 = true
  ∧ calls (__reconnect [[("failed_auth", "")]; []; [("session_start", "")]; []]
             (xmpp_client (ClientAsync_init new_xmpp))).1
    = [CallConnect None; CallConnect None; CallConnect None].
Proof.
  apply (reconnect_retries
           [[("failed_auth", "")]; []; [("session_start", "")]; []]
           (xmpp_client (ClientAsync_init new_xmpp))).
  intros e c k He Hh. cbn in He. apply list_elem_of_singleton in He as ->.
  discriminate Hh.
Defined.

End SessionMore.

(** *** client.py: requests, answers and incoming data *)

Module RequestMore.
Import Slixmpp XmppUtils Client Server Notions MoreNotions RequestFacts.

(** *** Counting the openings of elements *)

Lemma occurrences_lt_free p t u :
  lt_free t = true ->
  occurrences (String "<" p) (t ++ u) = occurrences (String "<" p) u.
Proof.
  induction t as [|c t IH]; [reflexivity|].
  cbn [lt_free]. intros [Hc Ht]%andb_prop.
  rewrite append_cons. cbn [occurrences starts_with].
  rewrite Ascii.eqb_sym. apply negb_true_iff in Hc. rewrite Hc.
  cbn [andb]. auto.
Qed.

Lemma occurrences_literal p lit u :
  closed_for (String "<" p) lit = true ->
  occurrences (String "<" p) (lit ++ u)
  = (occurrences (String "<" p) lit + occurrences (String "<" p) u)%nat.
Proof.
  induction lit as [|c lit IH].
  - intros _. rewrite append_nil. reflexivity.
  - cbn [closed_for]. intros [Hc Hl]%andb_prop.
    rewrite append_cons. cbn [occurrences]. rewrite <- append_cons.
    rewrite IH by assumption. rewrite Nat.add_assoc. f_equal. f_equal.
    destruct (starts_with (String "<" p) (String c lit)) eqn:E.
    + now rewrite starts_with_app_true.
    + cbn [orb] in Hc. apply negb_true_iff in Hc.
      rewrite starts_with_app_false by assumption. now rewrite E.
Qed.

Lemma occurrences_field_text p head tail value u :
  closed_for (String "<" p) head = true ->
  closed_for (String "<" p) tail = true ->
  occurrences (String "<" p) (field_text head tail value ++ u)
  = ((if is_supplied value
      then occurrences (String "<" p) head + occurrences (String "<" p) tail
      else 0)
     + occurrences (String "<" p) u)%nat.
Proof.
  intros Hh Ht. destruct value as [v|]; [|reflexivity].
  unfold field_text. rewrite !append_assoc.
  rewrite occurrences_literal by assumption.
  rewrite occurrences_lt_free by apply escape_lt_free.
  rewrite occurrences_literal by assumption.
  cbn [is_supplied]. lia.
Qed.

(** A request with one insertion: [subscribe], [unsubscribe]. *)
Lemma occurs_simple p head identifier tail :
  closed_for (String "<" p) head = true ->
  occurs (String "<" p) (head ++ escape identifier ++ tail)
  = occurs (String "<" p) head || occurs (String "<" p) tail.
Proof.
  intros H. rewrite occurs_literal by assumption.
  now rewrite occurs_lt_free by apply escape_lt_free.
Qed.

Lemma occurrences_simple p head identifier tail :
  closed_for (String "<" p) head = true ->
  occurrences (String "<" p) (head ++ escape identifier ++ tail)
  = (occurrences (String "<" p) head + occurrences (String "<" p) tail)%nat.
Proof.
  intros H. rewrite occurrences_literal by assumption.
  now rewrite occurrences_lt_free by apply escape_lt_free.
Qed.

Ltac open_pattern :=
  unfold has_field, has_command, field_elements, field_open, command_open;
  rewrite ?append_cons.

Lemma subscribe_sent self jid identifier reply :
  xml_chars identifier = true ->
  subscribe self jid identifier reply
  = (send (Iq "set" jid [subscribe_head ++ escape identifier ++ subscribe_tail])
          self,
     response ← with_IqErrorConverter reply;
     status ← command_status response;
     if decide (status = "completed") then Ok ()
     else Raise (RuntimeError
                   ("Unexpected iq response: " ++ response_text response))).
Proof.
  intros H. unfold subscribe, fromstring.
  rewrite xml_chars_simple by (vm_compute; reflexivity). now rewrite H.
Qed.

Lemma unsubscribe_sent self jid identifier reply :
  xml_chars identifier = true ->
  unsubscribe self jid identifier reply
  = (send (Iq "set" jid
             [unsubscribe_head ++ escape identifier ++ unsubscribe_tail]) self,
     response ← with_IqErrorConverter reply;
     status ← command_status response;
     if decide (status = "completed") then Ok ()
     else Raise (RuntimeError
                   ("Unexpected iq response: " ++ response_text response))).
Proof.
  intros H. unfold unsubscribe, fromstring.
  rewrite xml_chars_simple by (vm_compute; reflexivity). now rewrite H.
Qed.

Lemma subscribe_refused self jid identifier reply :
  xml_chars identifier = false ->
  subscribe self jid identifier reply = (self, Raise parse_error).
Proof.
  intros H. unfold subscribe, fromstring.
  rewrite xml_chars_simple by (vm_compute; reflexivity). now rewrite H.
Qed.

Lemma unsubscribe_refused self jid identifier reply :
  xml_chars identifier = false ->
  unsubscribe self jid identifier reply = (self, Raise parse_error).
Proof.
  intros H. unfold unsubscribe, fromstring.
  rewrite xml_chars_simple by (vm_compute; reflexivity). now rewrite H.
Qed.

(** X11.  For an identifier that XML can hold, [subscribe] and
    [unsubscribe] each hand the transport one stanza of type [set] for the
    proxy, whose only child is a command of their own node and not of the
    other's, with exactly one field element, the [identifier] field: the
    escaped text of the identifier opens no element.  For an identifier
    with a character XML refuses, [fromstring] raises [ParseError] and
    nothing is sent. *)
Theorem subscription_requests self jid identifier reply :
  (xml_chars identifier = true ->
   (∃ doc,
      calls (xmpp_client (subscribe self jid identifier reply).1)
      = (calls (xmpp_client self) ++ [CallSend (Iq "set" jid [doc])])%list
      ∧ has_command "subscribe" doc = true
      ∧ has_command "unsubscribe" doc = false
      ∧ field_elements doc = 1
      ∧ has_field "identifier" doc = true)
   ∧ (∃ doc,
        calls (xmpp_client (unsubscribe self jid identifier reply).1)
        = (calls (xmpp_client self) ++ [CallSend (Iq "set" jid [doc])])%list
        ∧ has_command "unsubscribe" doc = true
        ∧ has_command "subscribe" doc = false
        ∧ field_elements doc = 1
        ∧ has_field "identifier" doc = true))
  ∧ (xml_chars identifier = false ->
     subscribe self jid identifier reply = (self, Raise parse_error)
     ∧ unsubscribe self jid identifier reply = (self, Raise parse_error)).
Proof.
  split.
  - intros H. rewrite subscribe_sent, unsubscribe_sent by assumption.
    split; (eexists; split; [reflexivity|]); open_pattern;
      rewrite !occurs_simple by (vm_compute; reflexivity);
      change "<field " with (String "<" "field ");
      rewrite occurrences_simple by (vm_compute; reflexivity);
      vm_compute; repeat split.
  - intros H. now rewrite subscribe_refused, unsubscribe_refused.
Qed.

Lemma subscription_requests_witness :
  subscribe (ClientAsync_init new_xmpp) "proxy@host/r" (String "000" "urn")
    (Raise TimeoutError)
  = (ClientAsync_init new_xmpp, Raise parse_error)
  ∧ ∃ doc,
      calls (xmpp_client
               (subscribe (ClientAsync_init new_xmpp) "proxy@host/r" "urn:dev:1"
                  (Raise TimeoutError)).1)
      = (calls (xmpp_client (ClientAsync_init new_xmpp))
         ++ [CallSend (Iq "set" "proxy@host/r" [doc])])%list
      ∧ has_command "subscribe" doc = true
      ∧ has_command "unsubscribe" doc = false
      ∧ field_elements doc = 1
      ∧ has_field "identifier" doc = true.
Proof.
  split.
  - refine (proj1 (proj2 (subscription_requests (ClientAsync_init new_xmpp)
                            "proxy@host/r" (String "000" "urn")
                            (Raise TimeoutError)) _)).
    reflexivity.
  - refine (proj1 (proj1 (subscription_requests (ClientAsync_init new_xmpp)
                            "proxy@host/r" "urn:dev:1" (Raise TimeoutError)) _)).
    reflexivity.
Defined.

Lemma occurrences_get_history_command p identifier start_value end_value :
  forallb (closed_for (String "<" p))
    [get_history_head; get_history_after_identifier; start_time_field_head;
     start_time_field_tail; get_history_between_times; end_time_field_head;
     end_time_field_tail] = true ->
  occurrences (String "<" p)
    (get_history_command identifier
       (field_text start_time_field_head start_time_field_tail start_value)
       (field_text end_time_field_head end_time_field_tail end_value))
  = (occurrences (String "<" p) get_history_head
     + (occurrences (String "<" p) get_history_after_identifier
     + ((if is_supplied start_value
         then occurrences (String "<" p) start_time_field_head
              + occurrences (String "<" p) start_time_field_tail
         else 0)
     + (occurrences (String "<" p) get_history_between_times
     + ((if is_supplied end_value
         then occurrences (String "<" p) end_time_field_head
              + occurrences (String "<" p) end_time_field_tail
         else 0)
     + occurrences (String "<" p) get_history_tail)))))%nat.
Proof.
  cbn [forallb]. intros H.
  repeat (apply andb_prop in H as [? H]).
  unfold get_history_command.
  rewrite (occurrences_literal _ get_history_head) by assumption.
  rewrite occurrences_lt_free by apply escape_lt_free.
  rewrite (occurrences_literal _ get_history_after_identifier) by assumption.
  rewrite occurrences_field_text by assumption.
  rewrite (occurrences_literal _ get_history_between_times) by assumption.
  rewrite occurrences_field_text by assumption.
  reflexivity.
Qed.

(** X12.  The request [get_history] builds is a stanza of type [set] for
    the proxy with one child, a [get_history] command, whose field elements
    are the [identifier] field and one more for each timestamp given. *)
Theorem get_history_request_elements jid identifier start_time end_time iq :
  get_history_request jid identifier start_time end_time = Ok iq ->
  iq_type iq = "set" ∧ iq_to iq = jid
  ∧ ∃ doc,
      iq_children iq = [doc]
      ∧ has_command "get_history" doc = true
      ∧ has_command "subscribe" doc = false
      ∧ has_command "unsubscribe" doc = false
      ∧ field_elements doc
        = (1 + (if is_supplied start_time then 1 else 0)
           + (if is_supplied end_time then 1 else 0))%nat.
Proof.
  intros ->%get_history_request_ok. split; [reflexivity|]. split; [reflexivity|].
  eexists. split; [reflexivity|]. open_pattern.
  rewrite !occurs_get_history_command by (vm_compute; reflexivity).
  change "<field " with (String "<" "field ").
  rewrite occurrences_get_history_command by (vm_compute; reflexivity).
  rewrite !is_supplied_fmap.
  destruct start_time, end_time; vm_compute; repeat split.
Qed.

(** *** The answer to [get_history] *)

(** X13.  [get_history] returns data exactly when no timestamp is naive,
    the identifier holds no character XML refuses, and the answer holds a
    command element with status [completed]; the data is then read from
    the data element of that command. *)
Theorem get_history_result self jid identifier start_time end_time reply data :
  (get_history self jid identifier start_time end_time reply).2 = Ok data
  <-> is_naive start_time || is_naive end_time = false
      ∧ xml_chars identifier = true
      ∧ ∃ r c, reply = Ok r ∧ command r = Some c
               ∧ attrib c !! "status" = Some "completed"
               ∧ data = from_xml (data_elt c).
Proof.
  unfold get_history. rewrite get_history_request_eq.
  destruct (is_naive start_time || is_naive end_time).
  { cbn. split; [discriminate|now intros [? _]]. }
  destruct (xml_chars identifier).
  2: { cbn. split; [discriminate|now intros (_ & ? & _)]. }
  cbn [snd]. split.
  - intros H. split; [reflexivity|]. split; [reflexivity|].
    destruct reply as [r|e];
      [|unfold with_IqErrorConverter in H;
        destruct (IqErrorConverter_exit (Some e)); cbn in H; discriminate].
    cbn in H. unfold command_status, getitem in H.
    destruct (command r) as [c|] eqn:Ec; [|discriminate]. cbn in H.
    destruct (attrib c !! "status") as [st|] eqn:Es; [|discriminate]. cbn in H.
    destruct (decide (st = "completed")) as [->|]; cbn in H; [|discriminate].
    rewrite ?Ec in H. cbn in H. injection H as <-. eauto 10.
  - intros (_ & _ & r & c & -> & Ec & Es & ->). cbn.
    unfold command_status, getitem. rewrite Ec. cbn. rewrite Es. cbn.
    reflexivity.
Qed.

(** *** The queue of incoming data *)

Lemma listen_take n self :
  listen n self
  = (take n (incoming_data self),
     MkClientAsync (xmpp_client self) (drop n (incoming_data self))).
Proof.
  revert self. induction n as [|n IH]; intros [x q]; [reflexivity|].
  destruct q as [|d q]; [reflexivity|].
  change (listen (S n) (MkClientAsync x (d :: q)))
    with (let '(ds, s) := listen n (MkClientAsync x q) in (d :: ds, s)).
  rewrite IH. reflexivity.
Qed.

Lemma handled_messages ms self :
  foldl handle_message_data self ms
  = MkClientAsync (xmpp_client self)
      (incoming_data self ++ map (fun m => from_xml (message_data m)) ms)%list.
Proof.
  revert self. induction ms as [|m ms IH]; intros [x q].
  - cbn. now rewrite app_nil_r.
  - cbn [foldl map]. rewrite IH. cbn. now rewrite <- app_assoc.
Qed.

(** X15.  What [handle_message_data] queued comes out of [listen] in the
    order of arrival, after what was waiting already, each message once;
    the queue is then empty. *)
Theorem incoming_data_fifo ms self n :
  length (incoming_data self) + length ms <= n ->
  listen n (foldl handle_message_data self ms)
  = ((incoming_data self ++ map (fun m => from_xml (message_data m)) ms)%list,
     MkClientAsync (xmpp_client self) []).
Proof.
  intros Hn.
  rewrite listen_take, handled_messages. cbn [incoming_data xmpp_client].
  rewrite take_ge, drop_ge; [reflexivity|..];
    rewrite length_app, length_map; lia.
Qed.

Lemma get_history_request_elements_witness :
  ∃ doc,
    iq_children
      (Iq "set" "proxy@host/r"
         [get_history_command "urn:dev:1"
            (field_text start_time_field_head start_time_field_tail None)
            (field_text end_time_field_head end_time_field_tail
               (Some (isoformat
                        (DateTime (Utils.Date 2024 1 5) 0 0 0 0 (Some 60%Z)))))])
    = [doc]
    ∧ has_command "get_history" doc = true
    ∧ has_command "subscribe" doc = false
    ∧ has_command "unsubscribe" doc = false
    ∧ field_elements doc = 2.
Proof.
  refine (proj2 (proj2
            (get_history_request_elements "proxy@host/r" "urn:dev:1" None
               (Some (DateTime (Utils.Date 2024 1 5) 0 0 0 0 (Some 60%Z)))
               _ _))).
  reflexivity.
Defined.

Lemma get_history_result_witness :
  (get_history (ClientAsync_init new_xmpp) "proxy@host/r" "urn:dev:1" None None
     (Ok (Response (Some (CommandElt {["status" := "completed"]} (Some "<data/>")))
            "<iq/>"))).2
  = Ok (from_xml (Some "<data/>")).
Proof.
  apply (get_history_result (ClientAsync_init new_xmpp) "proxy@host/r" "urn:dev:1"
           None None).
  split; [reflexivity|]. split; [reflexivity|].
  exists (Response (Some (CommandElt {["status" := "completed"]} (Some "<data/>")))
            "<iq/>"),
         (CommandElt {["status" := "completed"]} (Some "<data/>")).
  repeat split.
Defined.

Lemma incoming_data_fifo_witness :
  listen 5
    (foldl handle_message_data (MkClientAsync new_xmpp [from_xml (Some "<a/>")])
       [Message (Some "<b/>"); Message None])
  = ([from_xml (Some "<a/>"); from_xml (Some "<b/>"); from_xml None],
     MkClientAsync new_xmpp []).
Proof.
  apply (incoming_data_fifo [Message (Some "<b/>"); Message None]
           (MkClientAsync new_xmpp [from_xml (Some "<a/>")]) 5).
  cbn. lia.
Defined.

(** *** The answers to [subscribe] and [unsubscribe] *)

(** X14.  [subscribe] and [unsubscribe] read the answer alike: they return
    exactly when the identifier holds no character XML refuses and the
    answer holds a command element with status [completed]; with no
    command element the attribute access fails, with no [status] attribute
    [KeyError] is raised, and any other status is a [RuntimeError] that
    carries the text of the answer.  For an identifier XML refuses no
    answer is read: [ParseError] is raised. *)
Theorem subscription_result self jid identifier reply :
  (subscribe self jid identifier reply).2 = (unsubscribe self jid identifier reply).2
  ∧ ((subscribe self jid identifier reply).2 = Ok ()
     <-> xml_chars identifier = true
         ∧ ∃ r c, reply = Ok r ∧ command r = Some c
                  ∧ attrib c !! "status" = Some "completed")
  ∧ (xml_chars identifier = true ->
     (∀ r, reply = Ok r -> command r = None ->
        ∃ message,
          (subscribe self jid identifier reply).2
          = Raise (OtherError "AttributeError" message))
     ∧ (∀ r c, reply = Ok r -> command r = Some c ->
          attrib c !! "status" = None ->
          (subscribe self jid identifier reply).2 = Raise (KeyError "status"))
     ∧ (∀ r c status,
          reply = Ok r -> command r = Some c ->
          attrib c !! "status" = Some status -> status ≠ "completed" ->
          (subscribe self jid identifier reply).2
          = Raise (RuntimeError
                     ("Unexpected iq response: " ++ response_text r))))
  ∧ (xml_chars identifier = false ->
     (subscribe self jid identifier reply).2 = Raise parse_error).
Proof.
  destruct (xml_chars identifier) eqn:Hx.
  2: { rewrite subscribe_refused, unsubscribe_refused by assumption. cbn [snd].
       split; [reflexivity|]. split; [|split; [discriminate|reflexivity]].
       split; [discriminate|now intros [? _]]. }
  rewrite subscribe_sent, unsubscribe_sent by assumption. cbn [snd].
  split; [reflexivity|].
  split; [|split; [intros _|discriminate]].
  - split.
    + intros H. split; [reflexivity|].
      destruct reply as [r|e];
        [|unfold with_IqErrorConverter in H;
          destruct (IqErrorConverter_exit (Some e)); cbn in H; discriminate].
      cbn in H. unfold command_status, getitem in H.
      destruct (command r) as [c|] eqn:Ec; [|discriminate]. cbn in H.
      destruct (attrib c !! "status") as [st|] eqn:Es; [|discriminate]. cbn in H.
      destruct (decide (st = "completed")) as [->|]; cbn in H; [|discriminate].
      eauto 10.
    + intros (_ & r & c & -> & Ec & Es). cbn.
      unfold command_status, getitem. rewrite Ec. cbn. rewrite Es. reflexivity.
  - split; [|split].
    + intros r -> Ec. cbn. unfold command_status. rewrite Ec. cbn. eauto.
    + intros r c -> Ec Es. cbn. unfold command_status, getitem. rewrite Ec. cbn.
      rewrite Es. reflexivity.
    + intros r c status -> Ec Es Hs. cbn. unfold command_status, getitem.
      rewrite Ec. cbn. rewrite Es. cbn. now rewrite decide_False.
Qed.

Lemma subscription_result_witness :
  (subscribe (ClientAsync_init new_xmpp) "proxy@host/r" "urn:dev:1"
     (Ok (Response (Some (CommandElt {["status" := "executing"]} None)) "<iq/>"))).2
  = Raise (RuntimeError ("Unexpected iq response: " ++ "<iq/>")).
Proof.
  refine (proj2 (proj2 (proj1 (proj2 (proj2
            (subscription_result (ClientAsync_init new_xmpp) "proxy@host/r"
               "urn:dev:1"
               (Ok (Response
                      (Some (CommandElt {["status" := "executing"]} None))
                      "<iq/>"))))) _))
            (Response (Some (CommandElt {["status" := "executing"]} None)) "<iq/>")
            (CommandElt {["status" := "executing"]} None) "executing" _ _ _ _);
    [reflexivity..|discriminate].
Defined.

End RequestMore.

(** *** server.py: command handlers *)

Module CommandMore.
Import Slixmpp XmppUtils Client Server Notions MoreNotions CommandFacts.

(** *** [CommandHandler] *)

Lemma ErrorToXmppConverter_raise {A} e :
  with_ErrorToXmppConverter (A:=A) (Raise e) = Raise (to_xmpp e).
Proof. now destruct e. Qed.

Lemma ErrorToXmppConverter_ok {A} (a : A) :
  with_ErrorToXmppConverter (Ok a) = Ok a.
Proof. reflexivity. Qed.

Lemma to_xmpp_not_converted e : server_converts (to_xmpp e) = false.
Proof. now destruct e. Qed.

(** X22.  An [upstream-error] element that lacks its [issuer] or its
    [code] attribute, which the wire format excludes, makes the converter
    of the client raise [KeyError] for the first attribute missing,
    [issuer] before [code], in place of the [IqError] it was given. *)
Theorem upstream_error_missing_attribute {A} text iq attrib :
  upstream_error iq = Some attrib ->
  (attrib !! "issuer" = None ->
   with_IqErrorConverter (A:=A) (Raise (IqError "undefined-condition" text iq))
   = Raise (KeyError "issuer"))
  ∧ (is_Some (attrib !! "issuer") -> attrib !! "code" = None ->
     with_IqErrorConverter (A:=A) (Raise (IqError "undefined-condition" text iq))
     = Raise (KeyError "code")).
Proof.
  intros Hu. unfold with_IqErrorConverter, IqErrorConverter_exit, convert.
  cbn. rewrite Hu. unfold getitem. split.
  - intros ->. reflexivity.
  - intros [issuer ->] ->. reflexivity.
Qed.

Lemma upstream_error_missing_attribute_witness :
  with_IqErrorConverter (A:=())
    (Raise (IqError "undefined-condition" "quota"
              (IqXml (Some {["issuer" := "enedis"]}))))
  = Raise (KeyError "code").
Proof.
  refine (proj2 (upstream_error_missing_attribute (A:=()) "quota"
                   (IqXml (Some {["issuer" := "enedis"]}))
                   {["issuer" := "enedis"]} _) _ _).
  - reflexivity.
  - exists "enedis". reflexivity.
  - reflexivity.
Defined.

(** X16.  When [handle_request] returns, the session differs from the one
    it was given in [payload] and [next] only: every other key, such as
    [from], is as before; [payload] is set and [next] is [handle_submit]
    for a request without subelements, [None] otherwise. *)
Theorem handle_request_keeps self iq session session' :
  handle_request self iq session = Ok session' ->
  (∀ k, k ≠ "payload" -> k ≠ "next" -> session' !! k = session !! k)
  ∧ is_Some (session' !! "payload")
  ∧ session' !! "next"
    = Some (if has_subelements iq then VNone else VHandleSubmit).
Proof.
  unfold handle_request, handle_submit. intros H.
  destruct (has_subelements iq).
  - destruct (session_getitem session "payload") as [p|]; [|discriminate].
    cbn in H.
    destruct (with_ErrorToXmppConverter _) as [[rf rd]|]; [|discriminate].
    cbn in H. injection H as <-. split; [|split].
    + intros k Hp Hn. now rewrite !lookup_insert_ne by done.
    + rewrite lookup_insert_eq. eauto.
    + rewrite lookup_insert_ne by done. apply lookup_insert_eq.
  - destruct (with_ErrorToXmppConverter _) as [f|]; [|discriminate].
    cbn in H. injection H as <-. split; [|split].
    + intros k Hp Hn. now rewrite !lookup_insert_ne by done.
    + rewrite lookup_insert_ne by done. rewrite lookup_insert_eq. eauto.
    + apply lookup_insert_eq.
Qed.

Lemma handle_request_keeps_witness :
  ∃ session',
    handle_request
      (MkCommandHandler "ping" "Ping" (fun form => Ok form)
         (fun _ _ form => Ok (form, VNone)))
      (CommandIq []) {["from" := VStr "client@host/r"]} = Ok session'
    ∧ session' !! "from" = Some (VStr "client@host/r")
    ∧ session' !! "next" = Some VHandleSubmit.
Proof.
  eexists. split; [reflexivity|].
  destruct (handle_request_keeps
              (MkCommandHandler "ping" "Ping" (fun form => Ok form)
                 (fun _ _ form => Ok (form, VNone)))
              (CommandIq []) {["from" := VStr "client@host/r"]} _ eq_refl)
    as (Hk & _ & Hn).
  split; [|exact Hn].
  rewrite Hk by discriminate. reflexivity.
Defined.

(** X17.  The failures of [handle_request]: an error of [fill_form] or of
    [execute] leaves through [ErrorToXmppConverter]; a request with
    subelements on a session without [payload] raises [KeyError], and so
    does [handle_submit] on a session without [from], before [execute] is
    called. *)
Theorem handle_request_errors self iq session e :
  (has_subelements iq = false ->
   fill_form self (make_form "form" (name self)) = Raise e ->
   handle_request self iq session = Raise (to_xmpp e))
  ∧ (has_subelements iq = true -> session !! "payload" = None ->
     handle_request self iq session = Raise (KeyError "payload"))
  ∧ (∀ payload, session !! "from" = None ->
       handle_submit self payload session = Raise (KeyError "from"))
  ∧ (∀ payload client,
       session !! "from" = Some client ->
       execute self client payload (make_form "result" "Get history") = Raise e ->
       handle_submit self payload session = Raise (to_xmpp e)).
Proof.
  split; [|split; [|split]].
  - intros Hiq Hf. unfold handle_request. rewrite Hiq, Hf.
    rewrite ErrorToXmppConverter_raise. reflexivity.
  - intros Hiq Hp. unfold handle_request, session_getitem. rewrite Hiq, Hp.
    reflexivity.
  - intros payload Hc. unfold handle_submit, session_getitem. rewrite Hc.
    reflexivity.
  - intros payload client Hc He. unfold handle_submit, session_getitem.
    rewrite Hc. cbn. rewrite He. rewrite ErrorToXmppConverter_raise. reflexivity.
Qed.

Lemma handle_request_errors_witness :
  handle_request
    (MkCommandHandler "ping" "Ping"
       (fun _ => Raise (PermissionError "unknown client"))
       (fun _ _ form => Ok (form, VNone)))
    (CommandIq []) ∅
  = Raise (XMPPError "not-authorized" None "unknown client").
Proof.
  apply (proj1 (handle_request_errors
                  (MkCommandHandler "ping" "Ping"
                     (fun _ => Raise (PermissionError "unknown client"))
                     (fun _ _ form => Ok (form, VNone)))
                  (CommandIq []) ∅ (PermissionError "unknown client")));
    reflexivity.
Defined.

(** X18.  No [PermissionError] and no [ValueError] leaves [handle_request]:
    whatever the handler's methods raise, what comes out is of another
    type. *)
Theorem handle_request_converts self iq session e :
  handle_request self iq session = Raise e -> server_converts e = false.
Proof.
  unfold handle_request, handle_submit, session_getitem. intros H.
  destruct (has_subelements iq).
  - destruct (session !! "payload") as [p|]; [|now injection H as <-].
    cbn in H.
    destruct (session !! "from") as [c|]; [|now injection H as <-].
    cbn in H.
    destruct (execute self c p (make_form "result" "Get history")) as [[rf rd]|e'].
    + discriminate.
    + rewrite ErrorToXmppConverter_raise in H. injection H as <-.
      apply to_xmpp_not_converted.
  - destruct (fill_form self (make_form "form" (name self))) as [f|e'].
    + discriminate.
    + rewrite ErrorToXmppConverter_raise in H. injection H as <-.
      apply to_xmpp_not_converted.
Qed.

Lemma handle_request_converts_witness :
  server_converts (XMPPError "bad-request" (Some "modify") "no such meter") = false.
Proof.
  apply (handle_request_converts
           (MkCommandHandler "ping" "Ping"
              (fun _ => Raise (ValueError "no such meter"))
              (fun _ _ form => Ok (form, VNone)))
           (CommandIq []) ∅).
  reflexivity.
Defined.

(** *** [GetHistoryHandler] *)

Lemma values_fields ftype title fs :
  values (MkForm ftype title fs)
  = foldl (fun m f => <[var f := value f]> m) ∅ fs.
Proof. reflexivity. Qed.

(** X19.  The form [GetHistoryHandler] offers can be submitted as it is:
    when [fromisoformat] reads back the two default times, submitting the
    form of the first step calls [get_history] with the sender of the
    session, the default identifier and these times, and the session ends
    with the result form, holding the single field [result], and the
    data. *)
Theorem get_history_form_round_trip identifier get_history fromisoformat
    start_time end_time iq session client data :
  has_subelements iq = false ->
  fromisoformat (isoformat start_time) = Ok start_time ->
  fromisoformat (isoformat end_time) = Ok end_time ->
  session !! "from" = Some client ->
  get_history client identifier start_time end_time = Ok data ->
  ∃ form session1 session2,
    handle_request
      (GetHistoryHandler (Ok identifier) get_history fromisoformat
         start_time end_time) iq session = Ok session1
    ∧ session1 !! "payload" = Some (VForm form)
    ∧ map var (fields form) = ["identifier"; "start_time"; "end_time"]
    ∧ handle_submit
        (GetHistoryHandler (Ok identifier) get_history fromisoformat
           start_time end_time) (VForm form) session1 = Ok session2
    ∧ session2 !! "payload"
      = Some (VList
                [VForm (MkForm "result" "Get history"
                          [Field "result" "fixed" ("Get " ++ identifier) None
                             false "Success"]);
                 data])
    ∧ session2 !! "next" = Some VNone.
Proof.
  intros Hiq Hs He Hc Hg.
  eexists _, _, _. split.
  { unfold handle_request. rewrite Hiq. reflexivity. }
  split.
  { rewrite lookup_insert_ne by done. apply lookup_insert_eq. }
  split; [reflexivity|].
  split.
  { unfold handle_submit, session_getitem.
    rewrite !lookup_insert_ne by done. rewrite Hc.
    cbn [mbind result_bind execute GetHistoryHandler].
    unfold GetHistoryHandler_execute, payload_values.
    cbn [mbind result_bind]. unfold addField, make_form. cbn [fields app].
    rewrite values_fields. cbn [foldl var value].
    unfold getitem.
    rewrite (lookup_insert_ne _ "end_time" "identifier") by done.
    rewrite (lookup_insert_ne _ "start_time" "identifier") by done.
    rewrite lookup_insert_eq. cbn [mbind result_bind].
    rewrite (lookup_insert_ne _ "end_time" "start_time") by done.
    rewrite lookup_insert_eq. cbn [mbind result_bind]. rewrite Hs.
    cbn [mbind result_bind]. rewrite lookup_insert_eq.
    cbn [mbind result_bind]. rewrite He. cbn [mbind result_bind]. rewrite Hg.
    reflexivity. }
  split.
  { apply lookup_insert_eq. }
  rewrite lookup_insert_ne by done. apply lookup_insert_eq.
Qed.

Lemma get_history_form_round_trip_witness :
  ∃ form session1 session2,
    handle_request
      (GetHistoryHandler (Ok "urn:dev:1")
         (fun _ _ _ _ => Ok (VData (from_xml None)))
         (fun _ => Ok (DateTime (Utils.Date 2024 1 5) 0 0 0 0 (Some 60%Z)))
         (DateTime (Utils.Date 2024 1 5) 0 0 0 0 (Some 60%Z))
         (DateTime (Utils.Date 2024 1 5) 0 0 0 0 (Some 60%Z)))
      (CommandIq []) {["from" := VStr "client@host/r"]} = Ok session1
    ∧ session1 !! "payload" = Some (VForm form)
    ∧ map var (fields form) = ["identifier"; "start_time"; "end_time"]
    ∧ handle_submit
        (GetHistoryHandler (Ok "urn:dev:1")
           (fun _ _ _ _ => Ok (VData (from_xml None)))
           (fun _ => Ok (DateTime (Utils.Date 2024 1 5) 0 0 0 0 (Some 60%Z)))
           (DateTime (Utils.Date 2024 1 5) 0 0 0 0 (Some 60%Z))
           (DateTime (Utils.Date 2024 1 5) 0 0 0 0 (Some 60%Z)))
        (VForm form) session1 = Ok session2
    ∧ session2 !! "payload"
      = Some (VList
                [VForm (MkForm "result" "Get history"
                          [Field "result" "fixed" ("Get " ++ "urn:dev:1") None
                             false "Success"]);
                 VData (from_xml None)])
    ∧ session2 !! "next" = Some VNone.
Proof.
  apply (get_history_form_round_trip "urn:dev:1"
           (fun _ _ _ _ => Ok (VData (from_xml None)))
           (fun _ => Ok (DateTime (Utils.Date 2024 1 5) 0 0 0 0 (Some 60%Z)))
           (DateTime (Utils.Date 2024 1 5) 0 0 0 0 (Some 60%Z))
           (DateTime (Utils.Date 2024 1 5) 0 0 0 0 (Some 60%Z))
           (CommandIq []) {["from" := VStr "client@host/r"]}
           (VStr "client@host/r") (VData (from_xml None)));
    reflexivity.
Defined.

(** X20.  Submitting to [GetHistoryHandler]: a form without [identifier]
    raises [KeyError], which is not converted; a start time that
    [fromisoformat] refuses with [ValueError] gives the XMPP error
    [bad-request] of type [modify] with the message of the refusal; an
    error of the application's [get_history] leaves through the
    converter. *)
Theorem get_history_submit_errors default_identifier get_history fromisoformat
    start_time end_time session client form :
  session !! "from" = Some client ->
  (values form !! "identifier" = None ->
   handle_submit
     (GetHistoryHandler default_identifier get_history fromisoformat
        start_time end_time) (VForm form) session
   = Raise (KeyError "identifier"))
  ∧ (∀ identifier text message,
       values form !! "identifier" = Some identifier ->
       values form !! "start_time" = Some text ->
       fromisoformat text = Raise (ValueError message) ->
       handle_submit
         (GetHistoryHandler default_identifier get_history fromisoformat
            start_time end_time) (VForm form) session
       = Raise (XMPPError "bad-request" (Some "modify") message))
  ∧ (∀ identifier start_text end_text t1 t2 e,
       values form !! "identifier" = Some identifier ->
       values form !! "start_time" = Some start_text ->
       values form !! "end_time" = Some end_text ->
       fromisoformat start_text = Ok t1 -> fromisoformat end_text = Ok t2 ->
       get_history client identifier t1 t2 = Raise e ->
       handle_submit
         (GetHistoryHandler default_identifier get_history fromisoformat
            start_time end_time) (VForm form) session
       = Raise (to_xmpp e)).
Proof.
  intros Hc. unfold handle_submit, session_getitem. rewrite Hc.
  cbn [mbind result_bind execute GetHistoryHandler].
  unfold GetHistoryHandler_execute, payload_values, getitem.
  cbn [mbind result_bind].
  split; [|split].
  - intros ->. reflexivity.
  - intros identifier text message -> -> Hf. cbn [mbind result_bind].
    rewrite Hf. reflexivity.
  - intros identifier st et t1 t2 e -> -> -> H1 H2 Hg. cbn [mbind result_bind].
    rewrite H1. cbn [mbind result_bind]. rewrite H2. cbn [mbind result_bind].
    rewrite Hg. cbn [mbind result_bind].
    rewrite ErrorToXmppConverter_raise. reflexivity.
Qed.

Lemma get_history_submit_errors_witness :
  handle_submit
    (GetHistoryHandler (Ok "urn:dev:1")
       (fun _ _ _ _ => Ok (VData (from_xml None)))
       (fun _ => Raise (ValueError "Invalid isoformat string"))
       (DateTime (Utils.Date 2024 1 4) 0 0 0 0 (Some 60%Z))
       (DateTime (Utils.Date 2024 1 5) 0 0 0 0 (Some 60%Z)))
    (VForm (MkForm "submit" ""
              [Field "identifier" "text-single" "" None false "urn:dev:1";
               Field "start_time" "text-single" "" None false "yesterday"]))
    {["from" := VStr "client@host/r"]}
  = Raise (XMPPError "bad-request" (Some "modify") "Invalid isoformat string").
Proof.
  refine (proj1 (proj2
            (get_history_submit_errors (Ok "urn:dev:1")
               (fun _ _ _ _ => Ok (VData (from_xml None)))
               (fun _ => Raise (ValueError "Invalid isoformat string"))
               (DateTime (Utils.Date 2024 1 4) 0 0 0 0 (Some 60%Z))
               (DateTime (Utils.Date 2024 1 5) 0 0 0 0 (Some 60%Z))
               {["from" := VStr "client@host/r"]} (VStr "client@host/r")
               (MkForm "submit" ""
                  [Field "identifier" "text-single" "" None false "urn:dev:1";
                   Field "start_time" "text-single" "" None false "yesterday"])
               _))
            "urn:dev:1" "yesterday" "Invalid isoformat string" _ _ _);
    vm_compute; reflexivity.
Defined.

(** *** The class statements *)

Section Subclass.
Import Class.
Variables (name : string) (base : class) (methods : list string).

Lemma own_method_found attr :
  attr ∈ methods ->
  ∃ i, list_find (fun m : string * bool => m.1 = attr)
         (own_methods (Subclass name base methods)) = Some (i, (attr, false)).
Proof.
  intros Hin. cbn [own_methods].
  destruct (list_find (fun m : string * bool => m.1 = attr)
              (map (fun m => (m, false)) methods)) as [[i [m b]]|] eqn:E.
  - apply list_find_Some in E as (Hi & Hm & _). cbn in Hm. subst m.
    change (map (fun m => (m, false)) methods)
      with ((fun m => (m, false)) <$> methods) in Hi.
    rewrite list_lookup_fmap in Hi.
    destruct (methods !! i); [|discriminate]. cbn in Hi.
    injection Hi as _ <-. eauto.
  - apply list_find_None in E. rewrite Forall_forall in E.
    exfalso. apply (E (attr, false)); [|reflexivity].
    apply list_elem_of_In, in_map_iff. exists attr. split; [reflexivity|].
    now apply list_elem_of_In.
Qed.

Lemma own_method_missing attr :
  attr ∉ methods ->
  list_find (fun m : string * bool => m.1 = attr)
    (own_methods (Subclass name base methods)) = None.
Proof.
  intros Hin. cbn [own_methods]. apply list_find_None, Forall_forall.
  intros [m b] [m' [[= <- <-] Hm]]%list_elem_of_In%in_map_iff. cbn.
  intros ->. apply Hin. now apply list_elem_of_In.
Qed.

Lemma is_abstract_own attr :
  attr ∈ methods -> is_abstract (Subclass name base methods) attr = false.
Proof.
  intros Hin. unfold is_abstract, getattr. cbn [mro find_method].
  destruct (own_method_found attr Hin) as [i ->]. reflexivity.
Qed.

Lemma is_abstract_inherited attr :
  attr ∉ methods ->
  is_abstract (Subclass name base methods) attr = is_abstract base attr.
Proof.
  intros Hin. unfold is_abstract, getattr. cbn [mro find_method].
  now rewrite own_method_missing.
Qed.

End Subclass.

Lemma filter_nil {A} (f : A -> bool) l :
  List.filter f l = [] <-> ∀ x, x ∈ l -> f x = false.
Proof.
  induction l as [|a l IH]; cbn.
  - split; [intros _ x Hx; inversion Hx|reflexivity].
  - destruct (f a) eqn:E.
    + split; [discriminate|]. intros H.
      rewrite (H a) in E by (apply elem_of_cons; auto). discriminate.
    + rewrite IH. split.
      * intros H x [->|Hx]%elem_of_cons; auto.
      * intros H x Hx. apply H, elem_of_cons; auto.
Qed.

(** X21.  A subclass of [GetHistoryHandler] that defines no [__init__] can
    be constructed exactly when it defines both [default_identifier] and
    [get_history]; the object then has node [get_history] and name
    [Get history].  Otherwise calling the class raises [TypeError]. *)
Theorem history_subclass_constructible name methods :
  "__init__" ∉ methods ->
  ("default_identifier" ∈ methods ∧ "get_history" ∈ methods ->
   ∃ self,
     Class.construct (Class.Subclass name Class.GetHistoryHandler methods)
     = Ok self
     ∧ Class.attrs self !! "node" = Some "get_history"
     ∧ Class.attrs self !! "name" = Some "Get history")
  ∧ (¬ ("default_identifier" ∈ methods ∧ "get_history" ∈ methods) ->
     ∃ message,
       Class.construct (Class.Subclass name Class.GetHistoryHandler methods)
       = Raise (TypeError message)).
Proof.
  intros _.
  assert (Hnil :
    Class.abstractmethods (Class.Subclass name Class.GetHistoryHandler methods) = []
    <-> "default_identifier" ∈ methods ∧ "get_history" ∈ methods).
  { unfold Class.abstractmethods.
    change (existsb Class.is_ABC
              (Class.mro (Class.Subclass name Class.GetHistoryHandler methods)))
      with true.
    cbn iota. rewrite filter_nil. split.
    - intros H. split.
      + destruct (decide ("default_identifier" ∈ methods)) as [|Hn]; [done|].
        exfalso.
        assert (E : Class.is_abstract
                      (Class.Subclass name Class.GetHistoryHandler methods)
                      "default_identifier" = false).
        { apply H, elem_of_remove_dups, list_elem_of_In, in_flat_map.
          exists Class.GetHistoryHandler. split; [cbn; tauto|cbn; tauto]. }
        rewrite is_abstract_inherited in E by assumption. discriminate E.
      + destruct (decide ("get_history" ∈ methods)) as [|Hn]; [done|].
        exfalso.
        assert (E : Class.is_abstract
                      (Class.Subclass name Class.GetHistoryHandler methods)
                      "get_history" = false).
        { apply H, elem_of_remove_dups, list_elem_of_In, in_flat_map.
          exists Class.GetHistoryHandler. split; [cbn; tauto|cbn; tauto]. }
        rewrite is_abstract_inherited in E by assumption. discriminate E.
    - intros [Hd Hg] x Hx.
      destruct (decide (x ∈ methods)) as [|Hn]; [now apply is_abstract_own|].
      rewrite is_abstract_inherited by assumption.
      apply elem_of_remove_dups, list_elem_of_In, in_flat_map in Hx
        as (k & Hk & Hx).
      cbn [Class.mro] in Hk.
      destruct Hk as [<-|Hk].
      { exfalso. apply Hn. cbn [Class.own_methods] in Hx.
        rewrite map_map in Hx. cbn in Hx. rewrite map_id in Hx.
        now apply list_elem_of_In. }
      cbn in Hk.
      destruct Hk as [<-|[<-|[<-|[<-|[]]]]]; cbn in Hx;
        repeat (destruct Hx as [<-|Hx]; [try reflexivity|]);
        try contradiction;
        exfalso; apply Hn; assumption. }
  split.
  - intros Hin. apply Hnil in Hin. unfold Class.construct. rewrite Hin.
    eexists. split; [reflexivity|]. split; reflexivity.
  - intros Hin. unfold Class.construct.
    destruct (Class.abstractmethods _) as [|a l] eqn:E.
    + exfalso. apply Hin, Hnil. reflexivity.
    + eauto.
Qed.

Lemma history_subclass_constructible_witness :
  ∃ self,
    Class.construct
      (Class.Subclass "History" Class.GetHistoryHandler
         ["get_history"; "helper"; "default_identifier"]) = Ok self
    ∧ Class.attrs self !! "node" = Some "get_history"
    ∧ Class.attrs self !! "name" = Some "Get history".
Proof.
  refine (proj1 (history_subclass_constructible "History"
                   ["get_history"; "helper"; "default_identifier"] _) _).
  - intros H. rewrite !elem_of_cons in H.
    destruct H as [H|[H|[H|H]]]; [discriminate H..|inversion H].
  - rewrite !elem_of_cons. auto.
Defined.

End CommandMore.
